(** * kvstore-client: the request contract of [KVStore]

    A shallow embedding of [src/index.ts].  The class [KVStore] holds four
    read-only strings and sends every operation through one private method,
    [_request], which posts a JSON body with [fetch] and turns the answer
    into a resolved or a rejected promise.

    - JavaScript values of type [any] are the inductive [any]; objects are
      association lists kept in property enumeration order.
    - [JSON.stringify] is written out, so that request bodies are the
      text that goes on the wire.
    - [fetch] is the outside world: a transport answers each request, and a
      promise is a function from the requests sent so far to an outcome and
      the requests sent afterwards. *)

From Stdlib Require Import List String Ascii Bool ZArith NArith Lia.
From Stdlib Require Import DecimalString.
Import ListNotations.

Local Open Scope list_scope.
Local Open Scope string_scope.

(** ** JavaScript values *)

(** A value of TypeScript type [any], as far as the model goes: what
    [JSON.parse] builds, and [undefined].  Numbers are the integers that
    a double holds exactly and that print in full, of magnitude below
    2^53.  A BigInt and an object that contains itself, on which
    [JSON.stringify] throws, are no values of this type, nor are
    functions and symbols. *)
#[local] Unset Elimination Schemes.
Inductive any : Type :=
| JUndefined
| JNull
| JBool (b : bool)
| JNumber (n : Z)
| JString (s : string)
| JArray (items : list any)
| JObject (props : list (string * any)).
#[local] Set Elimination Schemes.

(** An object: its own properties in enumeration order. *)
Definition object : Type := list (string * any).

(** ToBoolean. *)
Definition truthy (v : any) : bool :=
  match v with
  | JUndefined | JNull => false
  | JBool b => b
  | JNumber n => negb (n =? 0)%Z
  | JString s => negb (s =? EmptyString)
  | JArray _ | JObject _ => true
  end.

(** [a || b] *)
Definition js_or (a b : any) : any := if truthy a then a else b.

(** Number::toString for an integer of magnitude below 2^53. *)
Definition number_to_string (n : Z) : string :=
  NilZero.string_of_int (Z.to_int n).

(** [sep.join(parts)] on strings. *)
Fixpoint join (sep : string) (parts : list string) : string :=
  match parts with
  | [] => EmptyString
  | [p] => p
  | p :: rest => p ++ sep ++ join sep rest
  end.

Module Obj.

(** [o.hasOwnProperty(k)] *)
Fixpoint has_own (k : string) (o : object) : bool :=
  match o with
  | [] => false
  | (k', _) :: o' => (k' =? k) || has_own k o'
  end.

(** The own property [k] of [o], if there is one. *)
Fixpoint get_own (k : string) (o : object) : option any :=
  match o with
  | [] => None
  | (k', v) :: o' => if k' =? k then Some v else get_own k o'
  end.

(** [o.k] for a name that [Object.prototype] does not define: the own
    property, or [undefined]. *)
Definition get (o : object) (k : string) : any :=
  match get_own k o with
  | Some v => v
  | None => JUndefined
  end.

(** A canonical array index: the decimal text of an integer below
    [2^32 - 1], with no sign and no leading zero.  Such keys are
    enumerated first, in ascending order. *)
Definition array_index (k : string) : option N :=
  match NilZero.uint_of_string k with
  | Some u =>
      let n := N.of_uint u in
      if (NilZero.string_of_uint (N.to_uint n) =? k) && (n <? 4294967295)%N
      then Some n else None
  | None => None
  end.

(** Overwrites the value of the existing property [k], in place. *)
Fixpoint replace (k : string) (v : any) (o : object) : object :=
  match o with
  | [] => []
  | (k', v') :: o' =>
      if k' =? k then (k', v) :: o' else (k', v') :: replace k v o'
  end.

(** Adds the new array-index property [k] = [n] at its place among the
    array-index properties. *)
Fixpoint insert_index (n : N) (k : string) (v : any) (o : object) : object :=
  match o with
  | [] => [(k, v)]
  | (k', v') :: o' =>
      match array_index k' with
      | Some n' =>
          if (n' <? n)%N then (k', v') :: insert_index n k v o'
          else (k, v) :: o
      | None => (k, v) :: o
      end
  end.

(** CreateDataProperty: an existing property keeps its place and takes
    the new value; a new one is enumerated after the older ones of its
    kind. *)
Definition define (o : object) (k : string) (v : any) : object :=
  if has_own k o then replace k v o
  else match array_index k with
       | Some n => insert_index n k v o
       | None => (o ++ [(k, v)])%list
       end.

(** [{ ...target, ...source }]: CopyDataProperties of [source] onto
    [target]. *)
Definition spread (source target : object) : object :=
  fold_left (fun acc kv => define acc (fst kv) (snd kv)) source target.

(** The names of the own properties, in enumeration order. *)
Definition keys (o : object) : list string := map fst o.

End Obj.

(** ** JSON *)

Module JSON.

Definition hex_digit (n : nat) : ascii :=
  ascii_of_nat (if Nat.ltb n 10 then 48 + n else 87 + n).

Definition backslash : ascii := "\"%char.
Definition dquote : ascii := "034"%char.

(** The escape of one character inside a JSON string literal. *)
Definition escape (c : ascii) : string :=
  let n := nat_of_ascii c in
  if Nat.eqb n 34 then String backslash (String dquote EmptyString)
  else if Nat.eqb n 92 then String backslash (String backslash EmptyString)
  else if Nat.eqb n 8 then String backslash "b"
  else if Nat.eqb n 9 then String backslash "t"
  else if Nat.eqb n 10 then String backslash "n"
  else if Nat.eqb n 12 then String backslash "f"
  else if Nat.eqb n 13 then String backslash "r"
  else if Nat.ltb n 32 then
    String backslash
      ("u00" ++ String (hex_digit (n / 16)) (String (hex_digit (n mod 16)) EmptyString))
  else String c EmptyString.

Fixpoint escape_all (s : string) : string :=
  match s with
  | EmptyString => EmptyString
  | String c s' => escape c ++ escape_all s'
  end.

(** QuoteJSONString *)
Definition quote (s : string) : string :=
  String dquote (escape_all s ++ String dquote EmptyString).

(** [JSON.stringify(v)]: [None] is the result [undefined].  A property
    whose value is [undefined] is left out of an object, and an
    [undefined] item of an array is written [null]. *)
Fixpoint stringify (v : any) : option string :=
  match v with
  | JUndefined => None
  | JNull => Some "null"
  | JBool b => Some (if b then "true" else "false")
  | JNumber n => Some (number_to_string n)
  | JString s => Some (quote s)
  | JArray items =>
      Some ("[" ++ join ","
              (map (fun x => match stringify x with
                             | Some t => t
                             | None => "null"
                             end) items) ++ "]")
  | JObject props =>
      Some ("{" ++ join ","
              (flat_map (fun kv => match stringify (snd kv) with
                                   | Some t => [quote (fst kv) ++ ":" ++ t]
                                   | None => []
                                   end) props) ++ "}")
  end.

End JSON.

(** ** Errors and promises *)

(** An error object: its constructor name and its message. *)
Record JsError : Type := { name : string; message : string }.

Definition TypeError (msg : string) : JsError :=
  {| name := "TypeError"; message := msg |}.

(** How an evaluation ends: with a value, or with a thrown error.  For a
    promise these are fulfilment and rejection; an error thrown inside an
    async function rejects its promise. *)
Inductive outcome (A : Type) : Type :=
| Resolved (a : A)
| Rejected (e : JsError).
Arguments Resolved {A} a.
Arguments Rejected {A} e.

(** ToString.  An object parsed from JSON has no callable property, so an
    own [toString] hides [Object.prototype.toString] and the conversion
    throws; otherwise the text is the class tag.  An array joins its
    items with commas, [null] and [undefined] counting as empty. *)
Fixpoint to_string (v : any) : outcome string :=
  match v with
  | JUndefined => Resolved "undefined"
  | JNull => Resolved "null"
  | JBool b => Resolved (if b then "true" else "false")
  | JNumber n => Resolved (number_to_string n)
  | JString s => Resolved s
  | JArray items =>
      let fix go (l : list any) : outcome (list string) :=
        match l with
        | [] => Resolved []
        | x :: l' =>
            match (match x with
                   | JUndefined | JNull => Resolved EmptyString
                   | _ => to_string x
                   end) with
            | Rejected e => Rejected e
            | Resolved t =>
                match go l' with
                | Rejected e => Rejected e
                | Resolved ts => Resolved (t :: ts)
                end
            end
        end in
      match go items with
      | Rejected e => Rejected e
      | Resolved ts => Resolved (join "," ts)
      end
  | JObject props =>
      if Obj.has_own "toString" props
      then Rejected (TypeError "Cannot convert object to primitive value")
      else Resolved "[object Object]"
  end.

(** [new Error(message)]: the message is converted with ToString unless
    it is [undefined]. *)
Definition new_Error (msg : any) : outcome JsError :=
  match msg with
  | JUndefined => Resolved {| name := "Error"; message := EmptyString |}
  | _ =>
      match to_string msg with
      | Resolved s => Resolved {| name := "Error"; message := s |}
      | Rejected e => Rejected e
      end
  end.

(** ** Reading a property of a parsed body *)

(** The error of reading the property [k] of [null] or [undefined]. *)
Definition cannot_read (v : any) (k : string) : JsError :=
  TypeError ("Cannot read properties of "
             ++ (match v with JNull => "null" | _ => "undefined" end)
             ++ " (reading '" ++ k ++ "')").

(** [v.k] for one of the names [error], [value] and [stores], which no
    prototype of a JSON value defines: a [TypeError] on [null] and
    [undefined], the own property of an object, and [undefined] on an
    array, a string, a number or a boolean. *)
Definition read_field (v : any) (k : string) : outcome any :=
  match v with
  | JUndefined | JNull => Rejected (cannot_read v k)
  | JObject props => Resolved (Obj.get props k)
  | _ => Resolved JUndefined
  end.

(** What a method that returns a listing resolves with: a value, or one
    of the built-in functions [Array.prototype.keys], [values] and
    [entries], named by its name. *)
Inductive fetched : Type :=
| Data (v : any)
| ArrayMethod (name : string).

(** [v.k] for one of the names [keys], [values] and [entries]: as
    [read_field], but an array answers with the method of that name of
    [Array.prototype]. *)
Definition read_listing (v : any) (k : string) : outcome fetched :=
  match v with
  | JUndefined | JNull => Rejected (cannot_read v k)
  | JObject props => Resolved (Data (Obj.get props k))
  | JArray _ => Resolved (ArrayMethod k)
  | _ => Resolved (Data JUndefined)
  end.

(** ** The transport *)

(** The second argument of [fetch]. *)
Record RequestInit : Type :=
  { method : string;
    headers : list (string * string);
    body : option string }.

(** One call of [fetch]. *)
Record Request : Type := { url : string; init : RequestInit }.

(** What the client reads of a [Response]: [response.ok], and what
    [response.json()] settles to: any JSON value, [null] and arrays
    included, whatever the declared type [APIResponse] says, or a
    rejection when the body is not JSON. *)
Record Response : Type := { ok : bool; json : outcome any }.

(** The network and the remote service: the answer to a request, given
    the requests sent before it.  A rejection is a failure of [fetch]
    itself. *)
Definition transport : Type := list Request -> Request -> outcome Response.

(** A promise, as an async function builds it: from the requests sent so
    far to how it settles and the requests sent by then. *)
Definition promise (A : Type) : Type := list Request -> outcome A * list Request.

Definition ret {A} (a : A) : promise A := fun sent => (Resolved a, sent).

Definition throw {A} (e : JsError) : promise A := fun sent => (Rejected e, sent).

(** [await]: a rejection of [m] skips the rest of the function. *)
Definition bind {A B} (m : promise A) (k : A -> promise B) : promise B :=
  fun sent =>
    match m sent with
    | (Resolved a, sent') => k a sent'
    | (Rejected e, sent') => (Rejected e, sent')
    end.

(** An evaluation that may throw, inside an async function. *)
Definition lift {A} (r : outcome A) : promise A := fun sent => (r, sent).

Notation "x <- m ;; k" := (bind m (fun x => k))
  (at level 61, m at next level, right associativity).

(** [fetch(url, init)] *)
Definition fetch (net : transport) (url : string) (init : RequestInit)
  : promise Response :=
  fun sent =>
    let request := {| url := url; init := init |} in
    (net sent request, (sent ++ [request])%list).

(** ** The client *)

Module KVStoreOptions.
(** [interface KVStoreOptions] *)
Record t : Type :=
  { accessToken : string; storeName : string; dbName : string }.
End KVStoreOptions.

Module KVEntry.
(** [interface KVEntry] *)
Record t : Type := { key : string; value : any }.

(** The entry as the object [{ key, value }]. *)
Definition to_any (e : t) : any :=
  JObject [("key", JString (key e)); ("value", value e)].
End KVEntry.

Module KVStore.

(** The four private read-only fields of the class. *)
Record t : Type :=
  { apiUrl : string;
    accessToken : string;
    storeName : string;
    dbName : string }.

Definition constructor (apiUrl : string) (options : KVStoreOptions.t) : t :=
  {| apiUrl := apiUrl;
     accessToken := KVStoreOptions.accessToken options;
     storeName := KVStoreOptions.storeName options;
     dbName := KVStoreOptions.dbName options |}.

Section Methods.

Variable net : transport.
Variable this : t.

(** The private method every operation goes through: one [fetch], the
    body parsed whatever the status, an [Error] on a failure status and
    the parsed body otherwise. *)
Definition _request (action : string) (params : object) : promise any :=
  response <-
    fetch net (apiUrl this)
      {| method := "POST";
         headers :=
           [("Content-Type", "application/json");
            ("Authorization", "Bearer " ++ accessToken this)];
         body :=
           JSON.stringify
             (JObject
                (Obj.spread params
                   [("action", JString action);
                    ("dbName", JString (dbName this));
                    ("storeName", JString (storeName this))])) |} ;;
  data <- lift (json response) ;;
  if negb (ok response) then
    error <- lift (read_field data "error") ;;
    e <- lift (new_Error (js_or error (JString "Request failed"))) ;;
    throw e
  else ret data.

Definition register (formData : object) : promise any :=
  _request "register" formData.

Definition login (formData : object) : promise any :=
  _request "login" formData.

Definition generateToken : promise any :=
  _request "generate-token" [].

Definition getUserInfo : promise any :=
  _request "get-user-info" [].

Definition getDatabases : promise any :=
  _request "get-databases" [].

Definition createDatabase (name : string) : promise any :=
  _request "create-database" [("name", JString name)].

Definition createStore (dbName storeName : string) : promise any :=
  _request "create-store"
    [("dbName", JString dbName); ("storeName", JString storeName)].

Definition set (key : string) (value : any) : promise any :=
  _request "set" [("key", JString key); ("value", value)].

Definition get (key : string) : promise any :=
  result <- _request "get" [("key", JString key)] ;;
  lift (read_field result "value").

Definition getStores (dbName : string) : promise any :=
  result <- _request "get-stores" [("dbName", JString dbName)] ;;
  lift (read_field result "stores").

Definition setMany (entries : list KVEntry.t) : promise any :=
  _request "setMany" [("entries", JArray (map KVEntry.to_any entries))].

Definition getMany (keys : list string) : promise fetched :=
  result <- _request "getMany" [("keys", JArray (map JString keys))] ;;
  lift (read_listing result "values").

Definition update (key : string) (value : any) : promise any :=
  _request "update" [("key", JString key); ("value", value)].

Definition delete (key : string) : promise any :=
  _request "delete" [("key", JString key)].

Definition deleteMany (keys : list string) : promise any :=
  _request "deleteMany" [("keys", JArray (map JString keys))].

(** The method assigns the defaults to its own parameters when they are
    falsy; [dbName1] and [storeName1] are the parameters after that. *)
Definition entries (dbName0 storeName0 : string) : promise fetched :=
  let dbName1 :=
    if negb (truthy (JString dbName0)) then dbName this else dbName0 in
  let storeName1 :=
    if negb (truthy (JString storeName0)) then storeName this else storeName0 in
  result <-
    _request "entries"
      [("dbName", JString dbName1); ("storeName", JString storeName1)] ;;
  lift (read_listing result "entries").

Definition keys : promise fetched :=
  result <- _request "keys" [] ;;
  lift (read_listing result "keys").

Definition values : promise fetched :=
  result <- _request "values" [] ;;
  lift (read_listing result "values").

Definition clear : promise any :=
  _request "clear" [].

Definition deleteStore (dbName storeName : string) : promise any :=
  _request "delete-store"
    [("dbName", JString dbName); ("storeName", JString storeName)].

Definition deleteDatabase (dbName : string) : promise any :=
  _request "delete-database" [("dbName", JString dbName)].

End Methods.

End KVStore.

(** The factory function kept for older callers. *)
Definition store (apiUrl : string) (options : KVStoreOptions.t) : KVStore.t :=
  KVStore.constructor apiUrl options.

(** ** The public operations as data *)

Module Api.

(** One call of a public method of [KVStore], with its arguments. *)
Inductive call : Type :=
| Register (formData : object)
| Login (formData : object)
| GenerateToken
| GetUserInfo
| GetDatabases
| CreateDatabase (name : string)
| CreateStore (dbName storeName : string)
| Set_ (key : string) (value : any)
| Get (key : string)
| GetStores (dbName : string)
| SetMany (entries : list KVEntry.t)
| GetMany (keys : list string)
| Update (key : string) (value : any)
| Delete (key : string)
| DeleteMany (keys : list string)
| Entries (dbName storeName : string)
| Keys
| Values
| Clear
| DeleteStore (dbName storeName : string)
| DeleteDatabase (dbName : string).

(** A method that resolves with a value: the response as it came, or
    a field that is no listing. *)
Definition raw (m : promise any) : promise fetched :=
  r <- m ;; ret (Data r).

(** Runs the method the call names. *)
Definition invoke (net : transport) (this : KVStore.t) (op : call)
  : promise fetched :=
  match op with
  | Register formData => raw (KVStore.register net this formData)
  | Login formData => raw (KVStore.login net this formData)
  | GenerateToken => raw (KVStore.generateToken net this)
  | GetUserInfo => raw (KVStore.getUserInfo net this)
  | GetDatabases => raw (KVStore.getDatabases net this)
  | CreateDatabase name => raw (KVStore.createDatabase net this name)
  | CreateStore dbName storeName =>
      raw (KVStore.createStore net this dbName storeName)
  | Set_ key value => raw (KVStore.set net this key value)
  | Get key => raw (KVStore.get net this key)
  | GetStores dbName => raw (KVStore.getStores net this dbName)
  | SetMany entries => raw (KVStore.setMany net this entries)
  | GetMany keys => KVStore.getMany net this keys
  | Update key value => raw (KVStore.update net this key value)
  | Delete key => raw (KVStore.delete net this key)
  | DeleteMany keys => raw (KVStore.deleteMany net this keys)
  | Entries dbName storeName => KVStore.entries net this dbName storeName
  | Keys => KVStore.keys net this
  | Values => KVStore.values net this
  | Clear => raw (KVStore.clear net this)
  | DeleteStore dbName storeName =>
      raw (KVStore.deleteStore net this dbName storeName)
  | DeleteDatabase dbName => raw (KVStore.deleteDatabase net this dbName)
  end.

(** The action names of the catalogue, in the order of the class. *)
Definition actions : list string :=
  ["register"; "login"; "generate-token"; "get-user-info"; "get-databases";
   "create-database"; "create-store"; "set"; "get"; "get-stores"; "setMany";
   "getMany"; "update"; "delete"; "deleteMany"; "entries"; "keys"; "values";
   "clear"; "delete-store"; "delete-database"].

(** The operations that take a database or store name of their own. *)
Definition names_its_target (op : call) : bool :=
  match op with
  | CreateStore _ _ | GetStores _ | Entries _ _
  | DeleteStore _ _ | DeleteDatabase _ => true
  | _ => false
  end.

(** The form data of a call, for the two operations that take one. *)
Definition form_data (op : call) : option object :=
  match op with
  | Register formData | Login formData => Some formData
  | _ => None
  end.

End Api.

(** ** What a call puts on the wire *)

Module Wire.

(** The action name a call passes to [_request]. *)
Definition action_of (op : Api.call) : string :=
  match op with
  | Api.Register _ => "register"
  | Api.Login _ => "login"
  | Api.GenerateToken => "generate-token"
  | Api.GetUserInfo => "get-user-info"
  | Api.GetDatabases => "get-databases"
  | Api.CreateDatabase _ => "create-database"
  | Api.CreateStore _ _ => "create-store"
  | Api.Set_ _ _ => "set"
  | Api.Get _ => "get"
  | Api.GetStores _ => "get-stores"
  | Api.SetMany _ => "setMany"
  | Api.GetMany _ => "getMany"
  | Api.Update _ _ => "update"
  | Api.Delete _ => "delete"
  | Api.DeleteMany _ => "deleteMany"
  | Api.Entries _ _ => "entries"
  | Api.Keys => "keys"
  | Api.Values => "values"
  | Api.Clear => "clear"
  | Api.DeleteStore _ _ => "delete-store"
  | Api.DeleteDatabase _ => "delete-database"
  end.

(** The parameter mapping a call passes to [_request]. *)
Definition params_of (this : KVStore.t) (op : Api.call) : object :=
  match op with
  | Api.Register formData | Api.Login formData => formData
  | Api.CreateDatabase name => [("name", JString name)]
  | Api.CreateStore d s | Api.DeleteStore d s =>
      [("dbName", JString d); ("storeName", JString s)]
  | Api.Set_ k v | Api.Update k v => [("key", JString k); ("value", v)]
  | Api.Get k | Api.Delete k => [("key", JString k)]
  | Api.GetStores d | Api.DeleteDatabase d => [("dbName", JString d)]
  | Api.SetMany es => [("entries", JArray (map KVEntry.to_any es))]
  | Api.GetMany ks | Api.DeleteMany ks => [("keys", JArray (map JString ks))]
  | Api.Entries d s =>
      [("dbName",
        JString (if negb (truthy (JString d)) then KVStore.dbName this else d));
       ("storeName",
        JString (if negb (truthy (JString s)) then KVStore.storeName this else s))]
  | _ => []
  end.

(** The field of the response a call returns; [None] for the calls that
    return the response itself. *)
Definition field_of (op : Api.call) : option string :=
  match op with
  | Api.Get _ => Some "value"
  | Api.GetStores _ => Some "stores"
  | Api.GetMany _ | Api.Values => Some "values"
  | Api.Entries _ _ => Some "entries"
  | Api.Keys => Some "keys"
  | _ => None
  end.

(** The names read with [read_listing]. *)
Definition listing (f : string) : bool :=
  (f =? "keys") || (f =? "values") || (f =? "entries").

(** What the caller gets out of the response [data]. *)
Definition result_of (op : Api.call) (data : any) : outcome fetched :=
  match field_of op with
  | Some f =>
      if listing f then read_listing data f
      else match read_field data f with
           | Resolved v => Resolved (Data v)
           | Rejected e => Rejected e
           end
  | None => Resolved (Data data)
  end.

(** The three properties every body starts from. *)
Definition defaults (this : KVStore.t) (action : string) : object :=
  [("action", JString action);
   ("dbName", JString (KVStore.dbName this));
   ("storeName", JString (KVStore.storeName this))].

(** The object [_request] hands to [JSON.stringify]. *)
Definition payload (this : KVStore.t) (action : string) (params : object)
  : object :=
  Obj.spread params (defaults this action).

(** The request that carries the object [o] as its body. *)
Definition post (this : KVStore.t) (o : object) : Request :=
  {| url := KVStore.apiUrl this;
     init :=
       {| method := "POST";
          headers :=
            [("Content-Type", "application/json");
             ("Authorization", "Bearer " ++ KVStore.accessToken this)];
          body := JSON.stringify (JObject o) |} |}.

(** The request of a call. *)
Definition request_of (this : KVStore.t) (op : Api.call) : Request :=
  post this (payload this (action_of op) (params_of this op)).

(** The message of the error for a failure response with body [data]. *)
Definition failure (data : any) : outcome JsError :=
  match read_field data "error" with
  | Resolved error => new_Error (js_or error (JString "Request failed"))
  | Rejected e => Rejected e
  end.

(** How [_request] settles on the answer of the transport. *)
Definition settle (answer : outcome Response) : outcome any :=
  match answer with
  | Rejected e => Rejected e
  | Resolved response =>
      match json response with
      | Rejected e => Rejected e
      | Resolved data =>
          if ok response then Resolved data
          else match failure data with
               | Resolved e => Rejected e
               | Rejected e => Rejected e
               end
      end
  end.

(** [f] on a fulfilled outcome. *)
Definition on_resolved {A B} (f : A -> outcome B) (r : outcome A) : outcome B :=
  match r with
  | Resolved a => f a
  | Rejected e => Rejected e
  end.

(** The three names every body starts from. *)
Definition default_name (k : string) : bool :=
  (k =? "action") || (k =? "dbName") || (k =? "storeName").

(** A mapping as a caller can build one: no property twice. *)
Definition distinct_keys (o : object) : Prop := NoDup (Obj.keys o).

End Wire.

(** ** A measure, and sample data *)

(** The number of constructors of a value. *)
Fixpoint size (v : any) : nat :=
  match v with
  | JArray items => S (fold_right (fun x n => size x + n) 0 items)
  | JObject props => S (fold_right (fun kv n => size (snd kv) + n) 0 props)
  | _ => 1
  end.

Module Demo.

(** The options and the client of the scenario of the specification. *)
Definition options : KVStoreOptions.t :=
  {| KVStoreOptions.accessToken := "t";
     KVStoreOptions.storeName := "s";
     KVStoreOptions.dbName := "d" |}.

Definition client : KVStore.t := KVStore.constructor "https://x/connect" options.

(** A transport that answers every request with the same response. *)
Definition always (response : Response) : transport :=
  fun _ _ => Resolved response.

(** A failure status with the body [{ error: X }]. *)
Definition refused : Response :=
  {| ok := false; json := Resolved (JObject [("error", JString "X")]) |}.

(** A success status with a body that has none of the result fields. *)
Definition bare : Response :=
  {| ok := true; json := Resolved (JObject [("success", JBool true)]) |}.

(** A success status with a body that has a [value]. *)
Definition found : Response :=
  {| ok := true;
     json := Resolved (JObject [("success", JBool true); ("value", JNumber 7)]) |}.

(** [s] between double quotes. *)
Definition in_quotes (s : string) : string :=
  String "034" (s ++ String "034" EmptyString).

(** Registration data as the documentation of the class shows it. *)
Definition form : object :=
  [("username", JString "john_doe");
   ("email", JString "john@example.com");
   ("password", JString "secure123")].

(** The same with one more field, named [dbName]. *)
Definition form_with_db : object :=
  (form ++ [("dbName", JString "other")])%list.

(** The same with one more field, named [action]. *)
Definition form_with_action : object :=
  (form ++ [("action", JString "drop")])%list.

(** A client whose configured names are empty. *)
Definition unnamed : KVStore.t :=
  KVStore.constructor "https://x/connect"
    {| KVStoreOptions.accessToken := "t";
       KVStoreOptions.storeName := EmptyString;
       KVStoreOptions.dbName := EmptyString |}.

(** The client of the test suite of the repository. *)
Definition tested : KVStore.t :=
  KVStore.constructor "https://api.example.com/connect"
    {| KVStoreOptions.accessToken := "test-token";
       KVStoreOptions.storeName := "test-store";
       KVStoreOptions.dbName := "test-db" |}.

(** The stubbed [fetch] of the test suite: a status and a parsed body. *)
Definition stub (ok : bool) (data : object) : transport :=
  always {| ok := ok; json := Resolved (JObject data) |}.

End Demo.

(** ** Conditions on the arguments of a call *)

Module Given.

(** The value, if any, is a non-empty string. *)
Definition nonempty_name (v : option any) : Prop :=
  match v with
  | None => True
  | Some (JString t) => t <> EmptyString
  | Some _ => False
  end.

(** The database and store names a call gives itself, as arguments or
    as properties of its form data, are non-empty strings.  The
    arguments of [entries] are not among them: an empty one is
    replaced by the default. *)
Definition names_nonempty (op : Api.call) : Prop :=
  match op with
  | Api.CreateStore d s | Api.DeleteStore d s =>
      d <> EmptyString /\ s <> EmptyString
  | Api.GetStores d | Api.DeleteDatabase d => d <> EmptyString
  | Api.Register formData | Api.Login formData =>
      Wire.distinct_keys formData
      /\ nonempty_name (Obj.get_own "dbName" formData)
      /\ nonempty_name (Obj.get_own "storeName" formData)
  | _ => True
  end.

(** The form data of the call, if it has one, has no own property [k]. *)
Definition form_lacks (k : string) (op : Api.call) : bool :=
  match Api.form_data op with
  | Some formData => negb (Obj.has_own k formData)
  | None => true
  end.

End Given.

(** ** Calls in a row, faults, and the text of a body *)

Module Session.

(** The requests sent once the calls [ops] were made one after the
    other, each one awaited and its outcome, whatever it is, handled by
    the caller. *)
Definition requests_after (net : transport) (this : KVStore.t)
    (ops : list Api.call) (sent : list Request) : list Request :=
  fold_left (fun so_far op => snd (Api.invoke net this op so_far)) ops sent.

End Session.

Module Faults.

(** The error of a [fetch] that could not reach the service. *)
Definition unreachable : JsError := TypeError "fetch failed".

(** A transport that is down. *)
Definition down : transport := fun _ _ => Rejected unreachable.

(** The error of [response.json()] on a body that is not JSON. *)
Definition not_json : JsError :=
  {| name := "SyntaxError"; message := "Unexpected token < in JSON at position 0" |}.

(** A success status with a body that is not JSON. *)
Definition garbled : Response := {| ok := true; json := Rejected not_json |}.

(** A failure status whose body has an object as its [error]. *)
Definition structured : Response :=
  {| ok := false;
     json := Resolved (JObject [("error", JObject [("code", JNumber 42)])]) |}.

(** A success status whose body reports a failure all the same. *)
Definition soft_failure : Response :=
  {| ok := true;
     json :=
       Resolved (JObject [("success", JBool false); ("error", JString "denied")]) |}.

(** A success status with the body [null]. *)
Definition null_ok : Response := {| ok := true; json := Resolved JNull |}.

(** A failure status with the body [null]. *)
Definition null_failed : Response := {| ok := false; json := Resolved JNull |}.

(** A success status with the body [[]]. *)
Definition empty_array : Response := {| ok := true; json := Resolved (JArray []) |}.

(** A failure status whose [error] has a [toString] of its own. *)
Definition hostile : Response :=
  {| ok := false;
     json := Resolved (JObject [("error", JObject [("toString", JNumber 1)])]) |}.

End Faults.

Module Text.

(** The property has a value that [JSON.stringify] writes. *)
Definition defined (kv : string * any) : bool :=
  match snd kv with
  | JUndefined => false
  | _ => true
  end.


End Text.

Module Catalogue.

(** The place of the method of a call among the public methods of the
    class, from [register] at 0 to [deleteDatabase] at 20. *)
Definition position (op : Api.call) : nat :=
  match op with
  | Api.Register _ => 0
  | Api.Login _ => 1
  | Api.GenerateToken => 2
  | Api.GetUserInfo => 3
  | Api.GetDatabases => 4
  | Api.CreateDatabase _ => 5
  | Api.CreateStore _ _ => 6
  | Api.Set_ _ _ => 7
  | Api.Get _ => 8
  | Api.GetStores _ => 9
  | Api.SetMany _ => 10
  | Api.GetMany _ => 11
  | Api.Update _ _ => 12
  | Api.Delete _ => 13
  | Api.DeleteMany _ => 14
  | Api.Entries _ _ => 15
  | Api.Keys => 16
  | Api.Values => 17
  | Api.Clear => 18
  | Api.DeleteStore _ _ => 19
  | Api.DeleteDatabase _ => 20
  end.

End Catalogue.

(** * Properties *)

(** ** Objects *)

Section ObjectFacts.

Implicit Types (o p : object) (k : string) (v : any).

Lemma has_own_get_own k o :
  Obj.has_own k o = match Obj.get_own k o with Some _ => true | None => false end.
Proof.
  induction o as [|[k' v'] o IH]; simpl; [reflexivity|].
  destruct (k' =? k); simpl; auto.
Qed.

Lemma has_own_In k o : Obj.has_own k o = true <-> In k (Obj.keys o).
Proof.
  induction o as [|[k' v'] o IH]; simpl.
  - split; [discriminate | tauto].
  - rewrite orb_true_iff, IH, String.eqb_eq. tauto.
Qed.

Lemma get_own_app k o p :
  Obj.get_own k (o ++ p)%list =
  match Obj.get_own k o with Some v => Some v | None => Obj.get_own k p end.
Proof.
  induction o as [|[k' v'] o IH]; simpl; [reflexivity|].
  destruct (k' =? k); auto.
Qed.

Lemma get_own_replace_same k v o :
  Obj.has_own k o = true -> Obj.get_own k (Obj.replace k v o) = Some v.
Proof.
  induction o as [|[k' v'] o IH]; simpl; [discriminate|].
  destruct (k' =? k) eqn:E; simpl; rewrite E; auto.
Qed.

Lemma get_own_replace_other k k' v o :
  k <> k' -> Obj.get_own k' (Obj.replace k v o) = Obj.get_own k' o.
Proof.
  intros Hne. induction o as [|[k0 v0] o IH]; simpl; [reflexivity|].
  destruct (k0 =? k) eqn:E; simpl.
  - apply String.eqb_eq in E. subst k0.
    destruct (k =? k') eqn:E'; [apply String.eqb_eq in E'; contradiction | reflexivity].
  - rewrite IH. reflexivity.
Qed.

Lemma get_own_insert_index_same n k v o :
  Obj.has_own k o = false -> Obj.get_own k (Obj.insert_index n k v o) = Some v.
Proof.
  induction o as [|[k' v'] o IH]; simpl; intros H.
  - rewrite String.eqb_refl. reflexivity.
  - apply orb_false_iff in H. destruct H as [H1 H2].
    destruct (Obj.array_index k') as [n'|]; simpl.
    + destruct (n' <? n)%N; simpl.
      * rewrite H1. auto.
      * rewrite String.eqb_refl. reflexivity.
    + rewrite String.eqb_refl. reflexivity.
Qed.

Lemma get_own_insert_index_other n k k' v o :
  k <> k' -> Obj.get_own k' (Obj.insert_index n k v o) = Obj.get_own k' o.
Proof.
  intros Hne. apply String.eqb_neq in Hne.
  induction o as [|[k0 v0] o IH]; simpl.
  - rewrite Hne. reflexivity.
  - destruct (Obj.array_index k0) as [n'|]; simpl.
    + destruct (n' <? n)%N; simpl.
      * rewrite IH. reflexivity.
      * rewrite Hne. reflexivity.
    + rewrite Hne. reflexivity.
Qed.

(** Reading a property after [define]. *)
Lemma get_own_define k k' v o :
  Obj.get_own k' (Obj.define o k v) =
  if k =? k' then Some v else Obj.get_own k' o.
Proof.
  unfold Obj.define. destruct (k =? k') eqn:E.
  - apply String.eqb_eq in E. subst k'.
    destruct (Obj.has_own k o) eqn:H.
    + apply get_own_replace_same. exact H.
    + destruct (Obj.array_index k).
      * apply get_own_insert_index_same. exact H.
      * rewrite get_own_app. rewrite has_own_get_own in H.
        destruct (Obj.get_own k o); [discriminate|].
        simpl. rewrite String.eqb_refl. reflexivity.
  - apply String.eqb_neq in E.
    destruct (Obj.has_own k o).
    + apply get_own_replace_other. exact E.
    + destruct (Obj.array_index k).
      * apply get_own_insert_index_other. exact E.
      * rewrite get_own_app. simpl.
        apply String.eqb_neq in E. rewrite E.
        destruct (Obj.get_own k' o); reflexivity.
Qed.

(** Reading a property after a spread: the last write of the source
    wins, and a name the source does not have keeps the target's. *)
Lemma get_own_spread k p o :
  Obj.get_own k (Obj.spread p o) =
  match Obj.get_own k (rev p) with
  | Some v => Some v
  | None => Obj.get_own k o
  end.
Proof.
  unfold Obj.spread. revert o.
  induction p as [|[k' v'] p IH]; intros o; simpl; [reflexivity|].
  rewrite IH, get_own_app, get_own_define. simpl.
  destruct (Obj.get_own k (rev p)); [reflexivity|].
  destruct (k' =? k); reflexivity.
Qed.

Lemma get_own_None_notin k o :
  Obj.get_own k o = None <-> ~ In k (Obj.keys o).
Proof.
  rewrite <- has_own_In, has_own_get_own.
  destruct (Obj.get_own k o); split; intro H; congruence.
Qed.

Lemma get_own_rev k o :
  Wire.distinct_keys o -> Obj.get_own k (rev o) = Obj.get_own k o.
Proof.
  unfold Wire.distinct_keys.
  induction o as [|[k' v'] o IH]; simpl; intros H; [reflexivity|].
  inversion H as [|? ? Hnotin Hrest]; subst.
  rewrite get_own_app, IH by assumption. simpl.
  destruct (k' =? k) eqn:E.
  - apply String.eqb_eq in E. subst k'.
    apply get_own_None_notin in Hnotin. rewrite Hnotin. reflexivity.
  - destruct (Obj.get_own k o); reflexivity.
Qed.

(** A name the source has is read from the source. *)
Lemma get_spread_source k p o :
  Wire.distinct_keys p -> Obj.has_own k p = true ->
  Obj.get (Obj.spread p o) k = Obj.get p k.
Proof.
  intros Hd Hk. unfold Obj.get.
  rewrite get_own_spread, get_own_rev by assumption.
  rewrite has_own_get_own in Hk.
  destruct (Obj.get_own k p); [reflexivity | discriminate].
Qed.

(** A name the source does not have is read from the target. *)
Lemma get_own_spread_target k p o :
  Obj.has_own k p = false ->
  Obj.get_own k (Obj.spread p o) = Obj.get_own k o.
Proof.
  intros Hk. rewrite get_own_spread.
  assert (H : Obj.get_own k (rev p) = None).
  { apply get_own_None_notin. unfold Obj.keys. rewrite map_rev, <- in_rev.
    apply get_own_None_notin. rewrite has_own_get_own in Hk.
    destruct (Obj.get_own k p); [discriminate | reflexivity]. }
  rewrite H. reflexivity.
Qed.

End ObjectFacts.

(** ** The order and the number of the properties *)

Section ObjectOrder.

Implicit Types (o p : object) (k : string) (v : any).

Lemma keys_replace k v o : Obj.keys (Obj.replace k v o) = Obj.keys o.
Proof.
  induction o as [|[k' v'] o IH]; simpl; [reflexivity|].
  destruct (k' =? k); simpl; [reflexivity | rewrite IH; reflexivity].
Qed.

Lemma In_keys_insert_index n k v o k' :
  In k' (Obj.keys (Obj.insert_index n k v o)) <-> k' = k \/ In k' (Obj.keys o).
Proof.
  induction o as [|[k0 v0] o IH]; simpl.
  - intuition congruence.
  - destruct (Obj.array_index k0) as [n'|]; [destruct (n' <? n)%N|]; simpl;
      try rewrite IH; intuition congruence.
Qed.

Lemma In_keys_define k v o k' :
  In k' (Obj.keys (Obj.define o k v)) <-> k' = k \/ In k' (Obj.keys o).
Proof.
  unfold Obj.define. destruct (Obj.has_own k o) eqn:H.
  - rewrite keys_replace. apply has_own_In in H.
    split; [tauto | intros [->|]; assumption].
  - destruct (Obj.array_index k).
    + apply In_keys_insert_index.
    + unfold Obj.keys. rewrite map_app, in_app_iff. simpl. intuition congruence.
Qed.

Lemma NoDup_keys_insert_index n k v o :
  ~ In k (Obj.keys o) -> NoDup (Obj.keys o) ->
  NoDup (Obj.keys (Obj.insert_index n k v o)).
Proof.
  induction o as [|[k0 v0] o IH]; simpl; intros Hk Hnd.
  - constructor; [tauto | constructor].
  - assert (Hcons : NoDup (k :: k0 :: Obj.keys o)).
    { constructor; [simpl; tauto | exact Hnd]. }
    destruct (Obj.array_index k0) as [n'|]; [destruct (n' <? n)%N|]; simpl;
      try exact Hcons.
    inversion Hnd as [|? ? Hk0 Hrest]; subst.
    constructor.
    + rewrite In_keys_insert_index. intros [->|]; tauto.
    + apply IH; tauto.
Qed.

(** [define] never makes a second property of one name. *)
Lemma NoDup_keys_define k v o :
  NoDup (Obj.keys o) -> NoDup (Obj.keys (Obj.define o k v)).
Proof.
  intros Hnd. unfold Obj.define. destruct (Obj.has_own k o) eqn:H.
  - rewrite keys_replace. exact Hnd.
  - assert (Hk : ~ In k (Obj.keys o)).
    { rewrite <- has_own_In. congruence. }
    destruct (Obj.array_index k).
    + apply NoDup_keys_insert_index; assumption.
    + unfold Obj.keys. rewrite map_app. simpl.
      apply NoDup_app; [exact Hnd | constructor; [tauto | constructor] |].
      intros a Ha [->|[]]. exact (Hk Ha).
Qed.

Lemma NoDup_keys_spread p o :
  NoDup (Obj.keys o) -> NoDup (Obj.keys (Obj.spread p o)).
Proof.
  unfold Obj.spread. revert o.
  induction p as [|[k v] p IH]; intros o H; simpl; [exact H|].
  apply IH, NoDup_keys_define, H.
Qed.

Lemma filter_keys_insert_index (P : string -> bool) n k v o :
  P k = false ->
  filter P (Obj.keys (Obj.insert_index n k v o)) = filter P (Obj.keys o).
Proof.
  intros HP. induction o as [|[k0 v0] o IH]; simpl.
  - rewrite HP. reflexivity.
  - destruct (Obj.array_index k0) as [n'|]; [destruct (n' <? n)%N|]; simpl;
      rewrite ?HP, ?IH; reflexivity.
Qed.

(** The names picked by [P] keep their order under [define], when those
    that [P] picks are there already. *)
Lemma filter_keys_define (P : string -> bool) k v o :
  P k = false \/ Obj.has_own k o = true ->
  filter P (Obj.keys (Obj.define o k v)) = filter P (Obj.keys o).
Proof.
  intros H. unfold Obj.define. destruct (Obj.has_own k o) eqn:Hown.
  - rewrite keys_replace. reflexivity.
  - destruct H as [HP|]; [|discriminate].
    destruct (Obj.array_index k).
    + apply filter_keys_insert_index, HP.
    + unfold Obj.keys. rewrite map_app, filter_app. simpl. rewrite HP.
      apply app_nil_r.
Qed.

Lemma has_own_define k k' v o :
  Obj.has_own k' (Obj.define o k v) = (k =? k') || Obj.has_own k' o.
Proof.
  rewrite !has_own_get_own, get_own_define.
  destruct (k =? k'); reflexivity.
Qed.

Lemma filter_keys_spread (P : string -> bool) p o :
  (forall k, P k = true -> Obj.has_own k o = true) ->
  filter P (Obj.keys (Obj.spread p o)) = filter P (Obj.keys o).
Proof.
  unfold Obj.spread. revert o.
  induction p as [|[k v] p IH]; intros o H; simpl; [reflexivity|].
  rewrite IH.
  - apply filter_keys_define. destruct (P k) eqn:E; auto.
  - intros k' Hk'. rewrite has_own_define, (H k' Hk'). apply orb_true_r.
Qed.

(** A source of new names that are no array indices is appended as it
    stands. *)
Lemma spread_fresh p o :
  Wire.distinct_keys p ->
  (forall k, In k (Obj.keys p) ->
             Obj.array_index k = None /\ Obj.has_own k o = false) ->
  Obj.spread p o = (o ++ p)%list.
Proof.
  unfold Wire.distinct_keys, Obj.spread. revert o.
  induction p as [|[k v] p IH]; intros o Hnd H; simpl.
  - symmetry. apply app_nil_r.
  - inversion Hnd as [|? ? Hk Hrest]; subst.
    destruct (H k (or_introl eq_refl)) as [Hidx Hown].
    unfold Obj.define at 2. rewrite Hown, Hidx.
    rewrite IH; [rewrite <- app_assoc; reflexivity | exact Hrest |].
    intros k' Hk'. destruct (H k' (or_intror Hk')) as [Hidx' Hown'].
    split; [exact Hidx'|].
    rewrite has_own_get_own, get_own_app. rewrite has_own_get_own in Hown'.
    destruct (Obj.get_own k' o); [discriminate|]. simpl.
    destruct (k =? k') eqn:E; [|reflexivity].
    apply String.eqb_eq in E. subst k'. contradiction.
Qed.

End ObjectOrder.

(** ** Running a call *)

Section Running.

Variable net : transport.
Variable this : KVStore.t.

(** [_request] sends one request, the one of [Wire.post], and settles
    as [Wire.settle] says. *)
Lemma request_run action params sent :
  KVStore._request net this action params sent =
  (Wire.settle (net sent (Wire.post this (Wire.payload this action params))),
   (sent ++ [Wire.post this (Wire.payload this action params)])%list).
Proof.
  unfold KVStore._request, bind, fetch, lift, throw, ret, Wire.settle,
    Wire.failure, Wire.post, Wire.payload, Wire.defaults.
  destruct (net sent _) as [response|e]; [|reflexivity].
  destruct (json response) as [data|e]; [|reflexivity].
  destruct (ok response); simpl; [reflexivity|].
  destruct (read_field data "error") as [error|e]; [|reflexivity].
  destruct (new_Error _); reflexivity.
Qed.

(** Every call is one [_request] with the action and parameters of
    [Wire], followed by the projection of [Wire.result_of]. *)
Lemma invoke_request op sent :
  Api.invoke net this op sent =
  (data <- KVStore._request net this (Wire.action_of op) (Wire.params_of this op) ;;
   lift (Wire.result_of op data)) sent.
Proof.
  destruct op; try reflexivity;
    unfold Api.invoke, Api.raw, KVStore.get, KVStore.getStores, bind, lift, ret,
      Wire.result_of; cbn [Wire.field_of Wire.action_of Wire.params_of];
    destruct (KVStore._request _ _ _ _ sent) as [[data|e] sent'];
    try reflexivity;
    change (Wire.listing _) with false; cbv iota;
    destruct (read_field data _); reflexivity.
Qed.

Lemma invoke_run op sent :
  Api.invoke net this op sent =
  (Wire.on_resolved (Wire.result_of op)
     (Wire.settle (net sent (Wire.request_of this op))),
   (sent ++ [Wire.request_of this op])%list).
Proof.
  rewrite invoke_request. unfold bind. rewrite request_run.
  unfold Wire.request_of, lift.
  destruct (Wire.settle _); reflexivity.
Qed.

End Running.

(** ** The request body *)

(** [JSON.stringify] of an object is always a text. *)
Lemma stringify_object (o : object) :
  exists text, JSON.stringify (JObject o) = Some text.
Proof. simpl. eexists. reflexivity. Qed.

Lemma default_names_kept (this : KVStore.t) (action : string) (params : object) :
  filter Wire.default_name (Obj.keys (Wire.payload this action params)) =
  ["action"; "dbName"; "storeName"].
Proof.
  unfold Wire.payload. rewrite filter_keys_spread; [reflexivity|].
  intros k Hk. unfold Wire.default_name in Hk. apply has_own_In. simpl.
  apply orb_true_iff in Hk. destruct Hk as [Hk|Hk];
    [apply orb_true_iff in Hk; destruct Hk as [Hk|Hk]|];
    apply String.eqb_eq in Hk; subst k; auto.
Qed.

Lemma default_name_not_own (this : KVStore.t) (action k : string) :
  Wire.default_name k = false -> Obj.has_own k (Wire.defaults this action) = false.
Proof.
  unfold Wire.default_name. simpl. rewrite !(String.eqb_sym k).
  rewrite orb_false_r, orb_assoc. tauto.
Qed.

(** C1.  Whatever the action and the parameter mapping, [_request] sends
    one POST whose body is [JSON.stringify] of the object made of
    [action], [dbName] and [storeName] of the client, in this order,
    with the mapping spread over them: a name of the mapping is read
    from the mapping (so [dbName] or [storeName] in it replaces the
    default), every other name keeps its default, and a mapping of new
    names follows the three as it stands.  Every operation sends
    its request this way, and the next call starts from the defaults
    again. *)
Theorem C1_request_body (net : transport) (this : KVStore.t) :
  (forall action params sent,
      let o :=
        Obj.spread params
          [("action", JString action);
           ("dbName", JString (KVStore.dbName this));
           ("storeName", JString (KVStore.storeName this))] in
      snd (KVStore._request net this action params sent)
      = (sent ++ [Wire.post this o])%list
      /\ body (init (Wire.post this o)) = JSON.stringify (JObject o)
      /\ (exists text, body (init (Wire.post this o)) = Some text)
      /\ filter Wire.default_name (Obj.keys o) = ["action"; "dbName"; "storeName"]
      /\ (forall k, Obj.has_own k params = false ->
                    Obj.get_own k o
                    = Obj.get_own k
                        [("action", JString action);
                         ("dbName", JString (KVStore.dbName this));
                         ("storeName", JString (KVStore.storeName this))])
      /\ (forall k, Wire.distinct_keys params -> Obj.has_own k params = true ->
                    Obj.get o k = Obj.get params k)
      /\ (Wire.distinct_keys params ->
          (forall k, In k (Obj.keys params) ->
                     Obj.array_index k = None /\ Wire.default_name k = false) ->
          o = ([("action", JString action);
                ("dbName", JString (KVStore.dbName this));
                ("storeName", JString (KVStore.storeName this))] ++ params)%list))
  /\ (forall op sent,
         snd (Api.invoke net this op sent)
         = (sent ++
            [Wire.post this
               (Obj.spread (Wire.params_of this op)
                  [("action", JString (Wire.action_of op));
                   ("dbName", JString (KVStore.dbName this));
                   ("storeName", JString (KVStore.storeName this))])])%list)
  /\ (forall op op' sent,
         snd (Api.invoke net this op' (snd (Api.invoke net this op sent)))
         = (sent ++ [Wire.request_of this op; Wire.request_of this op'])%list).
Proof.
  split; [|split].
  - intros action params sent o.
    split; [rewrite request_run; reflexivity|].
    split; [reflexivity|].
    split; [apply stringify_object|].
    split; [apply (default_names_kept this action params)|].
    split; [|split].
    + intros k Hk. apply get_own_spread_target, Hk.
    + intros k Hd Hk. apply get_spread_source; assumption.
    + intros Hd Hnew. apply spread_fresh; [exact Hd|].
      intros k Hk. destruct (Hnew k Hk) as [Hidx Hdef].
      split; [exact Hidx|]. apply default_name_not_own, Hdef.
  - intros op sent. rewrite invoke_run. reflexivity.
  - intros op op' sent. rewrite !invoke_run. simpl.
    rewrite <- app_assoc. reflexivity.
Qed.

Lemma C1_request_body_witness :
  Obj.get
    (Obj.spread
       [("dbName", JString "db1"); ("storeName", JString "store1")]
       [("action", JString "create-store");
        ("dbName", JString (KVStore.dbName Demo.client));
        ("storeName", JString (KVStore.storeName Demo.client))])
    "dbName"
  = Obj.get [("dbName", JString "db1"); ("storeName", JString "store1")] "dbName".
Proof.
  refine (proj1 (proj2 (proj2 (proj2 (proj2 (proj2
            (proj1 (C1_request_body (Demo.always Demo.bare) Demo.client)
               "create-store"
               [("dbName", JString "db1"); ("storeName", JString "store1")]
               []))))))
            "dbName" _ eq_refl).
  unfold Wire.distinct_keys. simpl.
  repeat constructor; simpl; intuition discriminate.
Defined.

(** ** Failure *)

Lemma invoke_failure (net : transport) (this : KVStore.t) (op : Api.call)
    (sent : list Request) (response : Response) (data : any) :
  net sent (Wire.request_of this op) = Resolved response ->
  ok response = false ->
  json response = Resolved data ->
  fst (Api.invoke net this op sent)
  = match Wire.failure data with
    | Resolved e => Rejected e
    | Rejected e => Rejected e
    end.
Proof.
  intros Hnet Hok Hjson. rewrite invoke_run, Hnet. simpl.
  rewrite Hjson, Hok. destruct (Wire.failure data); reflexivity.
Qed.

(** C2, as the code has it.  When the answer of the transport has a
    failure status and a body that parses to a value other than [null],
    every operation rejects with an [Error].  Its message is the
    [error] property of the body when this is a non-empty string, and
    the text Request failed when the body has no [error] or a falsy
    one, the empty string included.  So the body with the single
    property [error] = X gives the message X, and the body with no
    property gives Request failed. *)
Theorem C2_failure_message (net : transport) (this : KVStore.t)
    (op : Api.call) (sent : list Request) (response : Response) (data : any) :
  net sent (Wire.request_of this op) = Resolved response ->
  ok response = false ->
  json response = Resolved data ->
  data <> JNull ->
  data <> JUndefined ->
  exists error,
    read_field data "error" = Resolved error
    /\ (forall props, data = JObject props -> error = Obj.get props "error")
    /\ (forall s, error = JString s -> s <> EmptyString ->
                  fst (Api.invoke net this op sent)
                  = Rejected {| name := "Error"; message := s |})
    /\ (truthy error = false ->
        fst (Api.invoke net this op sent)
        = Rejected {| name := "Error"; message := "Request failed" |})
    /\ (forall X, X <> EmptyString -> data = JObject [("error", JString X)] ->
                  fst (Api.invoke net this op sent)
                  = Rejected {| name := "Error"; message := X |})
    /\ (data = JObject [] ->
        fst (Api.invoke net this op sent)
        = Rejected {| name := "Error"; message := "Request failed" |}).
Proof.
  intros Hnet Hok Hjson Hnull Hundef.
  pose proof (invoke_failure net this op sent response data Hnet Hok Hjson) as H.
  assert (Hread : exists error, read_field data "error" = Resolved error).
  { destruct data; try contradiction; eexists; reflexivity. }
  destruct Hread as [error Hread]. exists error.
  unfold Wire.failure in H. rewrite Hread in H.
  assert (Hs : forall s, error = JString s -> s <> EmptyString ->
                         fst (Api.invoke net this op sent)
                         = Rejected {| name := "Error"; message := s |}).
  { intros s -> Hne. rewrite H. unfold js_or. simpl.
    destruct s as [|c s]; [contradiction|]. reflexivity. }
  assert (Hf : truthy error = false ->
               fst (Api.invoke net this op sent)
               = Rejected {| name := "Error"; message := "Request failed" |}).
  { intros Hf. rewrite H. unfold js_or. rewrite Hf. reflexivity. }
  split; [exact Hread|].
  split; [intros props ->; injection Hread as <-; reflexivity|].
  split; [exact Hs|]. split; [exact Hf|]. split.
  - intros X HX ->. injection Hread as <-. apply (Hs X); [reflexivity | exact HX].
  - intros ->. injection Hread as <-. apply Hf. reflexivity.
Qed.

Lemma C2_failure_message_witness :
  fst (Api.invoke (Demo.always Demo.refused) Demo.client Api.Keys [])
  = Rejected {| name := "Error"; message := "X" |}.
Proof.
  destruct (C2_failure_message (Demo.always Demo.refused) Demo.client Api.Keys []
              Demo.refused (JObject [("error", JString "X")])
              eq_refl eq_refl eq_refl)
    as (error & Hread & _ & _ & _ & HX & _).
  - discriminate.
  - discriminate.
  - apply (HX "X"); [discriminate | reflexivity].
Defined.

(** A failure status with the body [null] rejects with the [TypeError]
    of reading [error] of [null], and an [error] with a [toString] of
    its own rejects with the [TypeError] of the conversion: neither
    message is the [error] of the body or the text Request failed. *)
Lemma C2_counterexample :
  ok Faults.null_failed = false
  /\ json Faults.null_failed = Resolved JNull
  /\ fst (Api.invoke (Demo.always Faults.null_failed) Demo.client Api.Keys [])
     = Rejected (TypeError "Cannot read properties of null (reading 'error')")
  /\ TypeError "Cannot read properties of null (reading 'error')"
     <> {| name := "Error"; message := "Request failed" |}
  /\ ok Faults.hostile = false
  /\ fst (KVStore._request (Demo.always Faults.hostile) Demo.client "keys" [] [])
     = Rejected (TypeError "Cannot convert object to primitive value")
  /\ ~ (forall net this op sent response data,
          net sent (Wire.request_of this op) = Resolved response ->
          ok response = false ->
          json response = Resolved data ->
          exists msg,
            fst (Api.invoke net this op sent)
            = Rejected {| name := "Error"; message := msg |}).
Proof.
  repeat split; try reflexivity; try discriminate.
  intros H.
  destruct (H (Demo.always Faults.null_failed) Demo.client Api.Keys []
              Faults.null_failed JNull eq_refl eq_refl eq_refl) as [msg Hmsg].
  discriminate Hmsg.
Qed.

(** ** Success *)

Lemma get_own_size (k : string) (o : object) (v : any) :
  Obj.get_own k o = Some v -> size v < size (JObject o).
Proof.
  induction o as [|[k' v'] o IH]; simpl; [discriminate|].
  destruct (k' =? k).
  - intros [= ->]. lia.
  - intros H. specialize (IH H). simpl in IH. lia.
Qed.

(** A property of an object is never the object itself. *)
Lemma get_not_envelope (o : object) (k : string) : Obj.get o k <> JObject o.
Proof.
  unfold Obj.get. destruct (Obj.get_own k o) as [v|] eqn:E; [|discriminate].
  intros ->. apply get_own_size in E. lia.
Qed.

Lemma invoke_success (net : transport) (this : KVStore.t) (op : Api.call)
    (sent : list Request) (response : Response) (data : any) :
  net sent (Wire.request_of this op) = Resolved response ->
  ok response = true ->
  json response = Resolved data ->
  fst (Api.invoke net this op sent) = Wire.result_of op data.
Proof.
  intros Hnet Hok Hjson. rewrite invoke_run, Hnet. simpl.
  rewrite Hjson, Hok. reflexivity.
Qed.

Lemma fst_raw (m : promise any) (sent : list Request) (v : any) :
  fst (Api.raw m sent) = Resolved (Data v) -> fst (m sent) = Resolved v.
Proof.
  unfold Api.raw, bind, ret. destruct (m sent) as [[r|e] sent']; simpl.
  - intros [= ->]. reflexivity.
  - discriminate.
Qed.

(** C3, as the code has it.  On a success status with a body that
    parses to an object, [get] resolves with the [value] property of the
    object, and [keys], [values], [getMany], [getStores] and [entries]
    resolve with the property [keys], [values], [values], [stores] and
    [entries]; what they resolve with is never the object itself. *)
Theorem C3_projection (net : transport) (this : KVStore.t)
    (sent : list Request) (response : Response) (data : object) :
  ok response = true ->
  json response = Resolved (JObject data) ->
  (forall key,
      net sent (Wire.request_of this (Api.Get key)) = Resolved response ->
      fst (KVStore.get net this key sent) = Resolved (Obj.get data "value"))
  /\ (net sent (Wire.request_of this Api.Keys) = Resolved response ->
      fst (KVStore.keys net this sent) = Resolved (Data (Obj.get data "keys")))
  /\ (net sent (Wire.request_of this Api.Values) = Resolved response ->
      fst (KVStore.values net this sent) = Resolved (Data (Obj.get data "values")))
  /\ (forall keys,
         net sent (Wire.request_of this (Api.GetMany keys)) = Resolved response ->
         fst (KVStore.getMany net this keys sent)
         = Resolved (Data (Obj.get data "values")))
  /\ (forall dbName,
         net sent (Wire.request_of this (Api.GetStores dbName)) = Resolved response ->
         fst (KVStore.getStores net this dbName sent)
         = Resolved (Obj.get data "stores"))
  /\ (forall dbName storeName,
         net sent (Wire.request_of this (Api.Entries dbName storeName))
         = Resolved response ->
         fst (KVStore.entries net this dbName storeName sent)
         = Resolved (Data (Obj.get data "entries")))
  /\ (forall field, Obj.get data field <> JObject data).
Proof.
  intros Hok Hjson.
  assert (H : forall op f,
             Wire.field_of op = Some f ->
             net sent (Wire.request_of this op) = Resolved response ->
             fst (Api.invoke net this op sent) = Resolved (Data (Obj.get data f))).
  { intros op f Hf Hnet.
    rewrite (invoke_success net this op sent response (JObject data) Hnet Hok Hjson).
    unfold Wire.result_of. rewrite Hf. simpl. destruct (Wire.listing f); reflexivity. }
  repeat split.
  - intros key Hnet. apply fst_raw. apply (H (Api.Get key)); [reflexivity | exact Hnet].
  - apply (H Api.Keys). reflexivity.
  - apply (H Api.Values). reflexivity.
  - intros keys. apply (H (Api.GetMany keys)). reflexivity.
  - intros dbName Hnet. apply fst_raw.
    apply (H (Api.GetStores dbName)); [reflexivity | exact Hnet].
  - intros dbName storeName. apply (H (Api.Entries dbName storeName)). reflexivity.
  - apply get_not_envelope.
Qed.

Lemma C3_projection_witness :
  fst (KVStore.get (Demo.always Demo.found) Demo.client "key1" [])
  = Resolved (JNumber 7).
Proof.
  exact (proj1 (C3_projection (Demo.always Demo.found) Demo.client [] Demo.found
                  [("success", JBool true); ("value", JNumber 7)] eq_refl eq_refl)
           "key1" eq_refl).
Defined.

(** On a success status with the body [null], [get] rejects with the
    [TypeError] of reading [value] of [null], and with the body [[]],
    [keys] resolves with a method of arrays, which is no part of the
    body. *)
Lemma C3_counterexample :
  ok Faults.null_ok = true
  /\ json Faults.null_ok = Resolved JNull
  /\ fst (KVStore.get (Demo.always Faults.null_ok) Demo.client "key1" [])
     = Rejected (TypeError "Cannot read properties of null (reading 'value')")
  /\ fst (KVStore.keys (Demo.always Faults.null_ok) Demo.client [])
     = Rejected (TypeError "Cannot read properties of null (reading 'keys')")
  /\ fst (KVStore.keys (Demo.always Faults.empty_array) Demo.client [])
     = Resolved (ArrayMethod "keys")
  /\ ~ (forall net this key sent response data,
          net sent (Wire.request_of this (Api.Get key)) = Resolved response ->
          ok response = true ->
          json response = Resolved data ->
          exists v, fst (KVStore.get net this key sent) = Resolved v).
Proof.
  repeat split; try reflexivity.
  intros H.
  destruct (H (Demo.always Faults.null_ok) Demo.client "key1" []
              Faults.null_ok JNull eq_refl eq_refl eq_refl) as [v Hv].
  discriminate Hv.
Qed.

(** C10, as the code has it.  On a success status nothing checks the
    shape of the body.  With a body that parses to an object without
    the property an operation returns, or to a string, a number or a
    boolean, the operation resolves with [undefined].  With an array,
    [get] and [getStores] resolve with [undefined] and [getMany],
    [keys], [values] and [entries] with the method of arrays of that
    name.  With [null] each of the six rejects with a [TypeError]. *)
Theorem C10_missing_field (net : transport) (this : KVStore.t) (op : Api.call)
    (f : string) (sent : list Request) (response : Response) (data : any) :
  Wire.field_of op = Some f ->
  net sent (Wire.request_of this op) = Resolved response ->
  ok response = true ->
  json response = Resolved data ->
  (forall props, data = JObject props -> Obj.has_own f props = false ->
                 fst (Api.invoke net this op sent) = Resolved (Data JUndefined))
  /\ ((exists b, data = JBool b) \/ (exists n, data = JNumber n)
      \/ (exists s, data = JString s) ->
      fst (Api.invoke net this op sent) = Resolved (Data JUndefined))
  /\ (forall items, data = JArray items ->
                    fst (Api.invoke net this op sent)
                    = Resolved (if Wire.listing f then ArrayMethod f
                                else Data JUndefined))
  /\ (data = JNull ->
      fst (Api.invoke net this op sent) = Rejected (cannot_read JNull f))
  /\ (forall key, op = Api.Get key ->
                  f = "value"
                  /\ fst (Api.invoke net this op sent)
                     = match fst (KVStore.get net this key sent) with
                       | Resolved v => Resolved (Data v)
                       | Rejected e => Rejected e
                       end)
  /\ (op = Api.Keys ->
      f = "keys"
      /\ fst (Api.invoke net this op sent) = fst (KVStore.keys net this sent)).
Proof.
  intros Hf Hnet Hok Hjson.
  assert (H : fst (Api.invoke net this op sent)
              = if Wire.listing f then read_listing data f
                else match read_field data f with
                     | Resolved v => Resolved (Data v)
                     | Rejected e => Rejected e
                     end).
  { rewrite (invoke_success net this op sent response data Hnet Hok Hjson).
    unfold Wire.result_of. rewrite Hf. reflexivity. }
  split; [|split; [|split; [|split; [|split]]]].
  - intros props -> Hown. rewrite H. rewrite has_own_get_own in Hown.
    unfold read_listing, read_field, Obj.get.
    destruct (Obj.get_own f props); [discriminate|].
    destruct (Wire.listing f); reflexivity.
  - intros [[b ->]|[[n ->]|[s ->]]]; rewrite H;
      destruct (Wire.listing f); reflexivity.
  - intros items ->. rewrite H. destruct (Wire.listing f); reflexivity.
  - intros ->. rewrite H. destruct (Wire.listing f); reflexivity.
  - intros key ->. injection Hf as <-. split; [reflexivity|].
    unfold Api.invoke, Api.raw, bind, ret.
    destruct (KVStore.get net this key sent) as [[v|e] sent']; reflexivity.
  - intros ->. injection Hf as <-. split; reflexivity.
Qed.

Lemma C10_missing_field_witness :
  fst (Api.invoke (Demo.always Demo.bare) Demo.client (Api.Get "key1") [])
  = Resolved (Data JUndefined).
Proof.
  exact (proj1 (C10_missing_field (Demo.always Demo.bare) Demo.client
                  (Api.Get "key1") "value" [] Demo.bare
                  (JObject [("success", JBool true)])
                  eq_refl eq_refl eq_refl eq_refl)
           [("success", JBool true)] eq_refl eq_refl).
Defined.

(** The body [null] is JSON without the field, and the operation raises
    an error; the body [[]] is JSON without the field, and [keys]
    resolves with a function, not with [undefined]. *)
Lemma C10_counterexample :
  fst (KVStore.get (Demo.always Faults.null_ok) Demo.client "key1" [])
  = Rejected (TypeError "Cannot read properties of null (reading 'value')")
  /\ fst (KVStore.getMany (Demo.always Faults.null_ok) Demo.client ["a"] [])
     = Rejected (TypeError "Cannot read properties of null (reading 'values')")
  /\ fst (KVStore.keys (Demo.always Faults.empty_array) Demo.client [])
     = Resolved (ArrayMethod "keys")
  /\ ArrayMethod "keys" <> Data JUndefined
  /\ ~ (forall net this sent response data,
          net sent (Wire.request_of this Api.Keys) = Resolved response ->
          ok response = true ->
          json response = Resolved data ->
          (forall props, data = JObject props -> Obj.has_own "keys" props = false) ->
          fst (KVStore.keys net this sent) = Resolved (Data JUndefined)).
Proof.
  repeat split; try reflexivity; try discriminate.
  intros H.
  specialize (H (Demo.always Faults.null_ok) Demo.client []
                Faults.null_ok JNull eq_refl eq_refl eq_refl).
  assert (Hno : forall props, JNull = JObject props ->
                              Obj.has_own "keys" props = false)
    by (intros props Hp; discriminate Hp).
  specialize (H Hno). discriminate H.
Qed.

(** ** The names of the database and of the store *)

Lemma params_lack_names (this : KVStore.t) (op : Api.call) (k : string) :
  Api.names_its_target op = false ->
  Given.form_lacks k op = true ->
  k = "dbName" \/ k = "storeName" ->
  Obj.has_own k (Wire.params_of this op) = false.
Proof.
  intros Ht Hf Hk.
  destruct op; try discriminate Ht;
    try (unfold Given.form_lacks in Hf; simpl in Hf;
         apply negb_true_iff in Hf; exact Hf);
    destruct Hk as [->| ->]; reflexivity.
Qed.

(** C4, as the code has it.  An operation other than [createStore],
    [getStores], [entries], [deleteStore] and [deleteDatabase] sends the
    [dbName] and [storeName] of the client, whatever its arguments,
    unless it is [register] or [login] with form data that has a
    [dbName] or [storeName] of its own: a name of the form data is sent
    with the value the form data gives it. *)
Theorem C4_default_names (net : transport) (this : KVStore.t)
    (op : Api.call) (sent : list Request) :
  Api.names_its_target op = false ->
  let o := Wire.payload this (Wire.action_of op) (Wire.params_of this op) in
  snd (Api.invoke net this op sent) = (sent ++ [Wire.post this o])%list
  /\ (Given.form_lacks "dbName" op = true ->
      Obj.get_own "dbName" o = Some (JString (KVStore.dbName this)))
  /\ (Given.form_lacks "storeName" op = true ->
      Obj.get_own "storeName" o = Some (JString (KVStore.storeName this)))
  /\ (forall formData k,
         Api.form_data op = Some formData ->
         Wire.distinct_keys formData ->
         Obj.has_own k formData = true ->
         Obj.get o k = Obj.get formData k).
Proof.
  intros Ht o. split; [rewrite invoke_run; reflexivity|].
  split; [|split].
  - intros Hf. unfold o, Wire.payload.
    rewrite get_own_spread_target; [reflexivity|].
    apply params_lack_names; auto.
  - intros Hf. unfold o, Wire.payload.
    rewrite get_own_spread_target; [reflexivity|].
    apply params_lack_names; auto.
  - intros formData k Hform Hd Hk. unfold o, Wire.payload.
    destruct op; try discriminate Hform; injection Hform as <-;
      apply get_spread_source; assumption.
Qed.

Lemma C4_default_names_witness :
  Obj.get_own "dbName"
    (Wire.payload Demo.client "register" Demo.form)
  = Some (JString "d").
Proof.
  exact (proj1 (proj2 (C4_default_names (Demo.always Demo.bare) Demo.client
                         (Api.Register Demo.form) [] eq_refl))
           eq_refl).
Defined.

(** [register] with a form field named [dbName] sends that field in
    the place of the database name of the client. *)
Lemma C4_counterexample :
  Api.names_its_target (Api.Register Demo.form_with_db) = false
  /\ (forall net,
         snd (Api.invoke net Demo.client (Api.Register Demo.form_with_db) [])
         = [Wire.post Demo.client
              [("action", JString "register");
               ("dbName", JString "other");
               ("storeName", JString "s");
               ("username", JString "john_doe");
               ("email", JString "john@example.com");
               ("password", JString "secure123")]])
  /\ Obj.get
       [("action", JString "register");
        ("dbName", JString "other");
        ("storeName", JString "s");
        ("username", JString "john_doe");
        ("email", JString "john@example.com");
        ("password", JString "secure123")] "dbName"
     = JString "other"
  /\ JString "other" <> JString (KVStore.dbName Demo.client)
  /\ JSON.stringify
       (JObject
          [("action", JString "register");
           ("dbName", JString "other");
           ("storeName", JString "s");
           ("username", JString "john_doe");
           ("email", JString "john@example.com");
           ("password", JString "secure123")])
     = Some ("{" ++ Demo.in_quotes "action" ++ ":" ++ Demo.in_quotes "register"
             ++ "," ++ Demo.in_quotes "dbName" ++ ":" ++ Demo.in_quotes "other"
             ++ "," ++ Demo.in_quotes "storeName" ++ ":" ++ Demo.in_quotes "s"
             ++ "," ++ Demo.in_quotes "username" ++ ":" ++ Demo.in_quotes "john_doe"
             ++ "," ++ Demo.in_quotes "email" ++ ":"
             ++ Demo.in_quotes "john@example.com"
             ++ "," ++ Demo.in_quotes "password" ++ ":" ++ Demo.in_quotes "secure123"
             ++ "}")
  /\ ~ (forall this op,
          Api.names_its_target op = false ->
          Obj.get (Wire.payload this (Wire.action_of op) (Wire.params_of this op))
            "dbName"
          = JString (KVStore.dbName this)).
Proof.
  split; [reflexivity|]. split; [|split; [|split; [|split]]].
  - intros net. rewrite invoke_run. reflexivity.
  - reflexivity.
  - discriminate.
  - reflexivity.
  - intros H.
    specialize (H Demo.client (Api.Register Demo.form_with_db) eq_refl).
    discriminate H.
Qed.

(** C5.  The client built from the endpoint https://x/connect and the
    options accessToken t, storeName s, dbName d, on
    [createDatabase] of newdb, sends one POST to the endpoint whose body
    is the text of the object with the four properties action =
    create-database, dbName = d, storeName = s, name = newdb, in this
    order, and nothing else. *)
Theorem C5_create_database (net : transport) (sent : list Request) :
  let this :=
    KVStore.constructor "https://x/connect"
      {| KVStoreOptions.accessToken := "t";
         KVStoreOptions.storeName := "s";
         KVStoreOptions.dbName := "d" |} in
  let o :=
    [("action", JString "create-database");
     ("dbName", JString "d");
     ("storeName", JString "s");
     ("name", JString "newdb")] in
  let text :=
    "{" ++ Demo.in_quotes "action" ++ ":" ++ Demo.in_quotes "create-database"
    ++ "," ++ Demo.in_quotes "dbName" ++ ":" ++ Demo.in_quotes "d"
    ++ "," ++ Demo.in_quotes "storeName" ++ ":" ++ Demo.in_quotes "s"
    ++ "," ++ Demo.in_quotes "name" ++ ":" ++ Demo.in_quotes "newdb" ++ "}" in
  snd (KVStore.createDatabase net this "newdb" sent)
  = (sent ++
     [{| url := "https://x/connect";
         init :=
           {| method := "POST";
              headers :=
                [("Content-Type", "application/json");
                 ("Authorization", "Bearer t")];
              body := Some text |} |}])%list
  /\ JSON.stringify (JObject o) = Some text
  /\ Wire.payload this "create-database" [("name", JString "newdb")] = o
  /\ Obj.keys o = ["action"; "dbName"; "storeName"; "name"].
Proof.
  intros this o text.
  split; [|repeat split].
  unfold KVStore.createDatabase. rewrite request_run. reflexivity.
Qed.

(** For a string, falsy means empty. *)
Lemma falsy_string (s : string) :
  truthy (JString s) = false <-> s = EmptyString.
Proof.
  simpl. rewrite negb_false_iff. apply String.eqb_eq.
Qed.

(** C6.  [entries] sends, for each of its two arguments, the default of
    the client when the argument is the empty string, the only falsy
    string, and the argument itself when it is not empty. *)
Theorem C6_entries_fallback (net : transport) (this : KVStore.t)
    (dbName storeName : string) (sent : list Request) :
  let d := if dbName =? EmptyString then KVStore.dbName this else dbName in
  let s := if storeName =? EmptyString then KVStore.storeName this else storeName in
  snd (KVStore.entries net this dbName storeName sent)
  = (sent ++
     [Wire.post this
        [("action", JString "entries");
         ("dbName", JString d);
         ("storeName", JString s)]])%list
  /\ (truthy (JString dbName) = false <-> dbName = EmptyString)
  /\ (truthy (JString storeName) = false <-> storeName = EmptyString)
  /\ (dbName = EmptyString -> d = KVStore.dbName this)
  /\ (storeName = EmptyString -> s = KVStore.storeName this)
  /\ (dbName <> EmptyString -> d = dbName)
  /\ (storeName <> EmptyString -> s = storeName).
Proof.
  intros d s.
  split.
  { change (KVStore.entries net this dbName storeName)
      with (Api.invoke net this (Api.Entries dbName storeName)).
    rewrite invoke_run. unfold Wire.request_of, Wire.payload. simpl.
    rewrite !negb_involutive. reflexivity. }
  split; [apply falsy_string|]. split; [apply falsy_string|].
  unfold d, s. repeat split.
  - intros ->. reflexivity.
  - intros ->. reflexivity.
  - intros H. apply String.eqb_neq in H. rewrite H. reflexivity.
  - intros H. apply String.eqb_neq in H. rewrite H. reflexivity.
Qed.

Lemma C6_entries_fallback_witness :
  (if EmptyString =? EmptyString then KVStore.dbName Demo.client else EmptyString)
  = KVStore.dbName Demo.client.
Proof.
  exact (proj1 (proj2 (proj2 (proj2
           (C6_entries_fallback (Demo.always Demo.bare) Demo.client
              EmptyString EmptyString []))))
           eq_refl).
Defined.

(** A name is non-empty once the default and what the call gives are. *)
Lemma nonempty_after_spread (k dflt : string) (params target : object) :
  Obj.get_own k target = Some (JString dflt) ->
  dflt <> EmptyString ->
  Given.nonempty_name (Obj.get_own k (rev params)) ->
  exists t, Obj.get_own k (Obj.spread params target) = Some (JString t)
            /\ t <> EmptyString.
Proof.
  intros Ht Hd Hp. rewrite get_own_spread.
  destruct (Obj.get_own k (rev params)) as [v|]; simpl in Hp.
  - destruct v; try contradiction. eexists; split; [reflexivity | exact Hp].
  - exists dflt. split; assumption.
Qed.

Lemma fallback_nonempty (arg dflt : string) :
  dflt <> EmptyString ->
  (if negb (truthy (JString arg)) then dflt else arg) <> EmptyString.
Proof.
  intros Hd. simpl. rewrite negb_involutive.
  destruct (arg =? EmptyString) eqn:E; [exact Hd|].
  apply String.eqb_neq, E.
Qed.

Lemma given_names_nonempty (this : KVStore.t) (op : Api.call) (k : string) :
  KVStore.dbName this <> EmptyString ->
  KVStore.storeName this <> EmptyString ->
  Given.names_nonempty op ->
  k = "dbName" \/ k = "storeName" ->
  Given.nonempty_name (Obj.get_own k (rev (Wire.params_of this op))).
Proof.
  intros Hdb Hst Hop Hk.
  destruct op; simpl in Hop;
    try (destruct Hk as [->| ->]; simpl; tauto).
  - destruct Hop as (Hd & H1 & H2). simpl. rewrite get_own_rev by exact Hd.
    destruct Hk as [->| ->]; assumption.
  - destruct Hop as (Hd & H1 & H2). simpl. rewrite get_own_rev by exact Hd.
    destruct Hk as [->| ->]; assumption.
  - destruct Hk as [->| ->]; cbn -[truthy negb]; apply fallback_nonempty; assumption.
Qed.

(** C7, as the code has it.  The [dbName] and [storeName] of every body
    are non-empty strings when the two names of the client are not
    empty and the names the call gives itself (arguments of
    [createStore], [getStores], [deleteStore], [deleteDatabase], form
    fields of [register] and [login]) are non-empty strings; a name the
    call does not give is the one of the client.  Nothing checks the
    names; only [entries] replaces an empty one. *)
Theorem C7_names_nonempty (net : transport) (this : KVStore.t)
    (op : Api.call) (sent : list Request) :
  KVStore.dbName this <> EmptyString ->
  KVStore.storeName this <> EmptyString ->
  Given.names_nonempty op ->
  let o := Wire.payload this (Wire.action_of op) (Wire.params_of this op) in
  snd (Api.invoke net this op sent) = (sent ++ [Wire.post this o])%list
  /\ (exists d, Obj.get_own "dbName" o = Some (JString d) /\ d <> EmptyString)
  /\ (exists s, Obj.get_own "storeName" o = Some (JString s) /\ s <> EmptyString)
  /\ (Obj.has_own "dbName" (Wire.params_of this op) = false ->
      Obj.get_own "dbName" o = Some (JString (KVStore.dbName this)))
  /\ (Obj.has_own "storeName" (Wire.params_of this op) = false ->
      Obj.get_own "storeName" o = Some (JString (KVStore.storeName this))).
Proof.
  intros Hdb Hst Hop o. split; [rewrite invoke_run; reflexivity|].
  split; [|split; [|split]].
  - apply nonempty_after_spread with (dflt := KVStore.dbName this);
      [reflexivity | exact Hdb |].
    apply given_names_nonempty; auto.
  - apply nonempty_after_spread with (dflt := KVStore.storeName this);
      [reflexivity | exact Hst |].
    apply given_names_nonempty; auto.
  - intros H. unfold o, Wire.payload.
    rewrite get_own_spread_target by exact H. reflexivity.
  - intros H. unfold o, Wire.payload.
    rewrite get_own_spread_target by exact H. reflexivity.
Qed.

Lemma C7_names_nonempty_witness :
  exists d,
    Obj.get_own "dbName"
      (Wire.payload Demo.client "create-store"
         [("dbName", JString "db1"); ("storeName", JString "store1")])
    = Some (JString d) /\ d <> EmptyString.
Proof.
  refine (proj1 (proj2 (C7_names_nonempty (Demo.always Demo.bare) Demo.client
                          (Api.CreateStore "db1" "store1") [] _ _ _))).
  - discriminate.
  - discriminate.
  - split; discriminate.
Defined.

(** [createStore] with two empty strings sends them as they are, and a
    client configured with empty names sends those. *)
Lemma C7_counterexample :
  (forall net,
      snd (KVStore.createStore net Demo.client EmptyString EmptyString [])
      = [Wire.post Demo.client
           [("action", JString "create-store");
            ("dbName", JString EmptyString);
            ("storeName", JString EmptyString)]])
  /\ body (init (Wire.post Demo.client
                   [("action", JString "create-store");
                    ("dbName", JString EmptyString);
                    ("storeName", JString EmptyString)]))
     = Some ("{" ++ Demo.in_quotes "action" ++ ":" ++ Demo.in_quotes "create-store"
             ++ "," ++ Demo.in_quotes "dbName" ++ ":" ++ Demo.in_quotes EmptyString
             ++ "," ++ Demo.in_quotes "storeName" ++ ":" ++ Demo.in_quotes EmptyString
             ++ "}")
  /\ Obj.get
       [("action", JString "create-store");
        ("dbName", JString EmptyString);
        ("storeName", JString EmptyString)] "dbName"
     = JString EmptyString
  /\ KVStore.dbName Demo.client <> EmptyString
  /\ (forall net,
         snd (KVStore.keys net Demo.unnamed [])
         = [Wire.post Demo.unnamed
              [("action", JString "keys");
               ("dbName", JString EmptyString);
               ("storeName", JString EmptyString)]])
  /\ ~ (forall op,
          exists d,
            Obj.get (Wire.payload Demo.client (Wire.action_of op)
                       (Wire.params_of Demo.client op)) "dbName"
            = JString d
            /\ d <> EmptyString).
Proof.
  split; [|split; [|split; [|split; [|split]]]];
    [| | | | | intros H;
               destruct (H (Api.CreateStore EmptyString EmptyString)) as (d & Hd & Hne);
               injection Hd as <-; apply Hne; reflexivity].
  - intros net. unfold KVStore.createStore. rewrite request_run. reflexivity.
  - reflexivity.
  - reflexivity.
  - discriminate.
  - intros net.
    change (KVStore.keys net Demo.unnamed)
      with (Api.invoke net Demo.unnamed Api.Keys).
    rewrite invoke_run. reflexivity.
Qed.

(** ** The action *)

Lemma one_action (this : KVStore.t) (action : string) (params : object) :
  filter (String.eqb "action") (Obj.keys (Wire.payload this action params))
  = ["action"].
Proof.
  unfold Wire.payload. rewrite filter_keys_spread; [reflexivity|].
  intros k Hk. apply String.eqb_eq in Hk. subst k. reflexivity.
Qed.

Lemma action_in_catalogue (op : Api.call) :
  In (Wire.action_of op) Api.actions /\ Wire.action_of op <> EmptyString.
Proof.
  destruct op; simpl; split; try discriminate; tauto.
Qed.

(** C8, as the code has it.  The object of every body has exactly one
    [action] property, and the action name of every operation is one of
    the twenty-one names of the catalogue, never empty.  The property
    holds that name for every operation and all arguments, unless the
    form data of [register] or [login] has an [action] of its own, which
    is then sent in its place. *)
Theorem C8_action (net : transport) (this : KVStore.t)
    (op : Api.call) (sent : list Request) :
  let o := Wire.payload this (Wire.action_of op) (Wire.params_of this op) in
  snd (Api.invoke net this op sent) = (sent ++ [Wire.post this o])%list
  /\ filter (String.eqb "action") (Obj.keys o) = ["action"]
  /\ In (Wire.action_of op) Api.actions
  /\ Wire.action_of op <> EmptyString
  /\ (Given.form_lacks "action" op = true ->
      Obj.get_own "action" o = Some (JString (Wire.action_of op)))
  /\ (forall formData,
         Api.form_data op = Some formData ->
         Wire.distinct_keys formData ->
         Obj.has_own "action" formData = true ->
         Obj.get o "action" = Obj.get formData "action").
Proof.
  intros o. split; [rewrite invoke_run; reflexivity|].
  split; [apply one_action|].
  split; [apply action_in_catalogue|].
  split; [apply action_in_catalogue|].
  split.
  - intros Hf. unfold o, Wire.payload.
    rewrite get_own_spread_target; [reflexivity|].
    destruct op;
      try (unfold Given.form_lacks in Hf; simpl in Hf;
           apply negb_true_iff in Hf; exact Hf);
      reflexivity.
  - intros formData Hform Hd Hk. unfold o, Wire.payload.
    destruct op; try discriminate Hform; injection Hform as <-;
      apply get_spread_source; assumption.
Qed.

Lemma C8_action_witness :
  Obj.get_own "action" (Wire.payload Demo.client "register" Demo.form)
  = Some (JString "register").
Proof.
  exact (proj1 (proj2 (proj2 (proj2 (proj2
           (C8_action (Demo.always Demo.bare) Demo.client
              (Api.Register Demo.form) [])))))
           eq_refl).
Defined.

(** [register] with a form field named [action] sends that field in
    the place of the action name. *)
Lemma C8_counterexample :
  (forall net,
      snd (KVStore.register net Demo.client Demo.form_with_action [])
      = [Wire.post Demo.client
           [("action", JString "drop");
            ("dbName", JString "d");
            ("storeName", JString "s");
            ("username", JString "john_doe");
            ("email", JString "john@example.com");
            ("password", JString "secure123")]])
  /\ Obj.get
       [("action", JString "drop");
        ("dbName", JString "d");
        ("storeName", JString "s");
        ("username", JString "john_doe");
        ("email", JString "john@example.com");
        ("password", JString "secure123")] "action"
     = JString "drop"
  /\ ~ In "drop" Api.actions
  /\ JSON.stringify
       (JObject
          [("action", JString "drop");
           ("dbName", JString "d");
           ("storeName", JString "s");
           ("username", JString "john_doe");
           ("email", JString "john@example.com");
           ("password", JString "secure123")])
     = Some ("{" ++ Demo.in_quotes "action" ++ ":" ++ Demo.in_quotes "drop"
             ++ "," ++ Demo.in_quotes "dbName" ++ ":" ++ Demo.in_quotes "d"
             ++ "," ++ Demo.in_quotes "storeName" ++ ":" ++ Demo.in_quotes "s"
             ++ "," ++ Demo.in_quotes "username" ++ ":" ++ Demo.in_quotes "john_doe"
             ++ "," ++ Demo.in_quotes "email" ++ ":"
             ++ Demo.in_quotes "john@example.com"
             ++ "," ++ Demo.in_quotes "password" ++ ":" ++ Demo.in_quotes "secure123"
             ++ "}")
  /\ ~ (forall this op,
          exists a,
            Obj.get (Wire.payload this (Wire.action_of op) (Wire.params_of this op))
              "action"
            = JString a
            /\ In a Api.actions).
Proof.
  assert (Hdrop : ~ In "drop" Api.actions) by (simpl; intuition discriminate).
  split; [|split; [|split; [|split]]].
  - intros net. unfold KVStore.register. rewrite request_run. reflexivity.
  - reflexivity.
  - exact Hdrop.
  - reflexivity.
  - intros H.
    destruct (H Demo.client (Api.Register Demo.form_with_action)) as (a & Ha & Hin).
    injection Ha as <-. exact (Hdrop Hin).
Qed.

(** ** The factory function *)

(** C9.  [store] builds the client the constructor builds: the same four
    fields, hence the same requests and the same results for every
    operation against every transport. *)
Theorem C9_factory (apiUrl : string) (options : KVStoreOptions.t) :
  store apiUrl options = KVStore.constructor apiUrl options
  /\ KVStore.apiUrl (store apiUrl options) = apiUrl
  /\ KVStore.accessToken (store apiUrl options) = KVStoreOptions.accessToken options
  /\ KVStore.storeName (store apiUrl options) = KVStoreOptions.storeName options
  /\ KVStore.dbName (store apiUrl options) = KVStoreOptions.dbName options
  /\ (forall net op sent,
         Api.invoke net (store apiUrl options) op sent
         = Api.invoke net (KVStore.constructor apiUrl options) op sent).
Proof.
  repeat split.
Qed.

(** ** Agreement with the test suite of the repository *)

(** The request of [_request], as the test of the method expects it. *)
Example test_request_post (net : transport) :
  snd (KVStore._request net Demo.tested "test-action" [("key", JString "value")] [])
  = [{| url := "https://api.example.com/connect";
        init :=
          {| method := "POST";
             headers :=
               [("Content-Type", "application/json");
                ("Authorization", "Bearer test-token")];
             body :=
               JSON.stringify
                 (JObject
                    [("action", JString "test-action");
                     ("dbName", JString "test-db");
                     ("storeName", JString "test-store");
                     ("key", JString "value")]) |} |}].
Proof. rewrite request_run. reflexivity. Qed.

(** A failure status with an empty object rejects with the generic
    message. *)
Example test_request_generic_error :
  fst (KVStore._request (Demo.stub false []) Demo.tested "test-action" [] [])
  = Rejected {| name := "Error"; message := "Request failed" |}.
Proof. reflexivity. Qed.

(** [set] with an object as value sends the object inside the body. *)
Example test_set_complex_value (net : transport) :
  snd (KVStore.set net Demo.tested "user:123"
         (JObject [("name", JString "John"); ("age", JNumber 30);
                   ("active", JBool true)]) [])
  = [Wire.post Demo.tested
       [("action", JString "set");
        ("dbName", JString "test-db");
        ("storeName", JString "test-store");
        ("key", JString "user:123");
        ("value",
         JObject [("name", JString "John"); ("age", JNumber 30);
                  ("active", JBool true)])]]
  /\ JSON.stringify
       (JObject [("name", JString "John"); ("age", JNumber 30);
                 ("active", JBool true)])
     = Some ("{" ++ Demo.in_quotes "name" ++ ":" ++ Demo.in_quotes "John"
             ++ "," ++ Demo.in_quotes "age" ++ ":30"
             ++ "," ++ Demo.in_quotes "active" ++ ":true}").
Proof.
  split; [|reflexivity].
  unfold KVStore.set. rewrite request_run. reflexivity.
Qed.

(** [entries] with two names sends them and returns the array of the
    response. *)
Example test_entries :
  KVStore.entries
    (Demo.stub true
       [("success", JBool true);
        ("entries",
         JArray [JObject [("key", JString "key1"); ("value", JString "value1")];
                 JObject [("key", JString "key2"); ("value", JString "value2")]])])
    Demo.tested "db1" "store1" []
  = (Resolved
       (Data
          (JArray [JObject [("key", JString "key1"); ("value", JString "value1")];
                   JObject [("key", JString "key2"); ("value", JString "value2")]])),
     [Wire.post Demo.tested
        [("action", JString "entries");
         ("dbName", JString "db1");
         ("storeName", JString "store1")]]).
Proof. reflexivity. Qed.

(** * Further properties of the client *)

(** ** One request for each call *)

(** X1.  With arguments made of the values of [any], which
    [JSON.stringify] always encodes, an operation sends exactly one
    request, whatever the transport answers and whatever was sent
    before: a POST to the endpoint of the client, with the JSON content
    type and the bearer token of the client.  The request is the same
    against every transport and after every history, so nothing is sent
    again after a failure. *)
Theorem X1_one_post (net : transport) (this : KVStore.t)
    (op : Api.call) (sent : list Request) :
  exists request,
    snd (Api.invoke net this op sent) = (sent ++ [request])%list
    /\ url request = KVStore.apiUrl this
    /\ method (init request) = "POST"
    /\ headers (init request)
       = [("Content-Type", "application/json");
          ("Authorization", "Bearer " ++ KVStore.accessToken this)]
    /\ (forall net' sent',
           snd (Api.invoke net' this op sent') = (sent' ++ [request])%list)
    /\ List.length (snd (Api.invoke net this op sent)) = S (List.length sent).
Proof.
  exists (Wire.request_of this op).
  split; [rewrite invoke_run; reflexivity|].
  repeat split.
  - intros net' sent'. rewrite invoke_run. reflexivity.
  - rewrite invoke_run. simpl. rewrite length_app. simpl. lia.
Qed.

(** X10.  The client keeps nothing from one call to the next: after any
    calls with arguments made of the values of [any], however each one
    settled, the requests sent are the request of each call, in the
    order of the calls. *)
Theorem X10_calls_in_a_row (net : transport) (this : KVStore.t)
    (ops : list Api.call) (sent : list Request) :
  Session.requests_after net this ops sent
  = (sent ++ map (Wire.request_of this) ops)%list
  /\ List.length (Session.requests_after net this ops sent)
     = List.length sent + List.length ops
  /\ (forall net',
         Session.requests_after net' this ops sent
         = Session.requests_after net this ops sent).
Proof.
  assert (H : forall net0 ops0 sent0,
             Session.requests_after net0 this ops0 sent0
             = (sent0 ++ map (Wire.request_of this) ops0)%list).
  { intros net0 ops0. unfold Session.requests_after.
    induction ops0 as [|op ops0 IH]; intros sent0; simpl.
    - symmetry. apply app_nil_r.
    - rewrite IH, invoke_run. simpl. rewrite <- app_assoc. reflexivity. }
  split; [apply H|]. split.
  - rewrite H, length_app, length_map. reflexivity.
  - intros net'. rewrite !H. reflexivity.
Qed.

(** ** When the transport or the body fails *)

(** X2.  When [fetch] itself rejects, every operation rejects with the
    error of [fetch], unchanged. *)
Theorem X2_fetch_rejects (net : transport) (this : KVStore.t)
    (op : Api.call) (sent : list Request) (e : JsError) :
  net sent (Wire.request_of this op) = Rejected e ->
  fst (Api.invoke net this op sent) = Rejected e.
Proof.
  intros Hnet. rewrite invoke_run, Hnet. reflexivity.
Qed.

Lemma X2_fetch_rejects_witness :
  fst (Api.invoke Faults.down Demo.client (Api.Get "key1") [])
  = Rejected Faults.unreachable.
Proof.
  exact (X2_fetch_rejects Faults.down Demo.client (Api.Get "key1") []
           Faults.unreachable eq_refl).
Defined.

(** X3.  The body is parsed before the status is looked at: when
    [response.json()] rejects, every operation rejects with that error,
    on a success status as on a failure status, and the generic message
    is not used. *)
Theorem X3_body_not_json (net : transport) (this : KVStore.t)
    (op : Api.call) (sent : list Request) (response : Response) (e : JsError) :
  net sent (Wire.request_of this op) = Resolved response ->
  json response = Rejected e ->
  fst (Api.invoke net this op sent) = Rejected e.
Proof.
  intros Hnet Hjson. rewrite invoke_run, Hnet. simpl. rewrite Hjson. reflexivity.
Qed.

Lemma X3_body_not_json_witness :
  fst (Api.invoke (Demo.always Faults.garbled) Demo.client Api.Clear [])
  = Rejected Faults.not_json.
Proof.
  exact (X3_body_not_json (Demo.always Faults.garbled) Demo.client Api.Clear []
           Faults.garbled Faults.not_json eq_refl eq_refl).
Defined.

(** X4.  On a success status nothing in the body is looked at: an
    [error] or a false [success] in it changes nothing.  The operations
    that return the response resolve with the parsed body as it is,
    [null] included.  The six that return a field resolve whenever the
    body is not [null], and reject with a [TypeError] when it is. *)
Theorem X4_success_resolves (net : transport) (this : KVStore.t)
    (op : Api.call) (sent : list Request) (response : Response) (data : any) :
  net sent (Wire.request_of this op) = Resolved response ->
  ok response = true ->
  json response = Resolved data ->
  (Wire.field_of op = None ->
   fst (Api.invoke net this op sent) = Resolved (Data data))
  /\ (forall formData,
         op = Api.Register formData \/ op = Api.Login formData ->
         fst (Api.invoke net this op sent) = Resolved (Data data))
  /\ (forall key value,
         op = Api.Set_ key value \/ op = Api.Update key value ->
         fst (Api.invoke net this op sent) = Resolved (Data data))
  /\ (data <> JNull -> data <> JUndefined ->
      exists v, fst (Api.invoke net this op sent) = Resolved v)
  /\ (forall f, Wire.field_of op = Some f -> data = JNull ->
                fst (Api.invoke net this op sent)
                = Rejected (cannot_read JNull f)).
Proof.
  intros Hnet Hok Hjson.
  rewrite (invoke_success net this op sent response data Hnet Hok Hjson).
  unfold Wire.result_of.
  split; [intros ->; reflexivity|].
  split; [intros formData [->| ->]; reflexivity|].
  split; [intros key value [->| ->]; reflexivity|].
  split.
  - intros Hnull Hundef.
    destruct (Wire.field_of op) as [f|]; [|eexists; reflexivity].
    destruct data; try contradiction;
      destruct (Wire.listing f); eexists; reflexivity.
  - intros f -> ->. destruct (Wire.listing f); reflexivity.
Qed.

Lemma X4_success_resolves_witness :
  fst (Api.invoke (Demo.always Faults.soft_failure) Demo.client
         (Api.Set_ "k" (JString "v")) [])
  = Resolved
      (Data (JObject [("success", JBool false); ("error", JString "denied")])).
Proof.
  exact (proj1
           (X4_success_resolves (Demo.always Faults.soft_failure) Demo.client
              (Api.Set_ "k" (JString "v")) [] Faults.soft_failure
              (JObject [("success", JBool false); ("error", JString "denied")])
              eq_refl eq_refl eq_refl)
           eq_refl).
Defined.

(** X5.  On a failure status the [error] of the body is used as it
    converts to a string.  An object gives the text [object Object], or
    a [TypeError] when it has a [toString] of its own; [true] gives the
    text true; [null], [false] and zero give the generic message. *)
Theorem X5_error_not_a_string (net : transport) (this : KVStore.t)
    (op : Api.call) (sent : list Request) (response : Response) (data : object) :
  net sent (Wire.request_of this op) = Resolved response ->
  ok response = false ->
  json response = Resolved (JObject data) ->
  (forall props,
      Obj.get_own "error" data = Some (JObject props) ->
      Obj.has_own "toString" props = false ->
      fst (Api.invoke net this op sent)
      = Rejected {| name := "Error"; message := "[object Object]" |})
  /\ (forall props,
         Obj.get_own "error" data = Some (JObject props) ->
         Obj.has_own "toString" props = true ->
         exists e, fst (Api.invoke net this op sent) = Rejected e
                   /\ name e = "TypeError")
  /\ (Obj.get_own "error" data = Some (JBool true) ->
      fst (Api.invoke net this op sent)
      = Rejected {| name := "Error"; message := "true" |})
  /\ (Obj.get_own "error" data = Some JNull
      \/ Obj.get_own "error" data = Some (JBool false)
      \/ Obj.get_own "error" data = Some (JNumber 0) ->
      fst (Api.invoke net this op sent)
      = Rejected {| name := "Error"; message := "Request failed" |}).
Proof.
  intros Hnet Hok Hjson.
  assert (H : fst (Api.invoke net this op sent)
              = match Wire.failure (JObject data) with
                | Resolved e => Rejected e
                | Rejected e => Rejected e
                end).
  { rewrite invoke_run, Hnet. simpl. rewrite Hjson, Hok.
    destruct (Wire.failure (JObject data)); reflexivity. }
  rewrite H. unfold Wire.failure, read_field, Obj.get.
  split; [|split; [|split]].
  - intros props -> Hts. simpl. rewrite Hts. reflexivity.
  - intros props -> Hts. simpl. rewrite Hts. eexists. split; reflexivity.
  - intros ->. reflexivity.
  - intros [-> | [-> | ->]]; reflexivity.
Qed.

Lemma X5_error_not_a_string_witness :
  fst (Api.invoke (Demo.always Faults.structured) Demo.client Api.Keys [])
  = Rejected {| name := "Error"; message := "[object Object]" |}.
Proof.
  exact (proj1
           (X5_error_not_a_string (Demo.always Faults.structured) Demo.client
              Api.Keys [] Faults.structured
              [("error", JObject [("code", JNumber 42)])]
              eq_refl eq_refl eq_refl)
           [("code", JNumber 42)] eq_refl eq_refl).
Defined.

(** ** The properties of the body *)

Lemma In_keys_spread (p o : object) (k : string) :
  In k (Obj.keys (Obj.spread p o)) <-> In k (Obj.keys p) \/ In k (Obj.keys o).
Proof.
  unfold Obj.spread. revert o.
  induction p as [|[k' v'] p IH]; intros o; simpl.
  - tauto.
  - rewrite IH, In_keys_define. intuition congruence.
Qed.

(** X9.  The object of a body never has a property twice, whatever the
    parameter mapping, and its properties are the three defaults and
    the names of the mapping, no other. *)
Theorem X9_body_properties (net : transport) (this : KVStore.t)
    (action : string) (params : object) (sent : list Request) :
  exists o,
    snd (KVStore._request net this action params sent)
    = (sent ++ [Wire.post this o])%list
    /\ NoDup (Obj.keys o)
    /\ (forall k, In k (Obj.keys o)
                  <-> Wire.default_name k = true \/ In k (Obj.keys params))
    /\ forall op,
         NoDup (Obj.keys (Wire.payload this (Wire.action_of op)
                            (Wire.params_of this op))).
Proof.
  exists (Wire.payload this action params).
  split; [rewrite request_run; reflexivity|].
  assert (Hnd : forall a p, NoDup (Obj.keys (Wire.payload this a p))).
  { intros a p. apply NoDup_keys_spread. simpl.
    repeat constructor; simpl; intuition discriminate. }
  split; [apply Hnd|]. split; [|intros op; apply Hnd].
  intros k. unfold Wire.payload. rewrite In_keys_spread.
  unfold Wire.default_name. simpl.
  rewrite !orb_true_iff, !String.eqb_eq. intuition congruence.
Qed.

Lemma snd_raw (m : promise any) (sent : list Request) :
  snd (Api.raw m sent) = snd (m sent).
Proof.
  unfold Api.raw, bind, ret. destruct (m sent) as [[r|e] sent']; reflexivity.
Qed.

(** X7.  The operations that name a database or a store send the names
    they are given in the place of the defaults, as they are, the empty
    string included: [createStore] and [deleteStore] replace both
    names, [getStores] and [deleteDatabase] replace the database name
    and keep the store name of the client.  The body has the three
    properties and no other. *)
Theorem X7_given_names_replace (net : transport) (this : KVStore.t)
    (d s : string) (sent : list Request) :
  snd (KVStore.createStore net this d s sent)
  = (sent ++ [Wire.post this
                [("action", JString "create-store");
                 ("dbName", JString d);
                 ("storeName", JString s)]])%list
  /\ snd (KVStore.deleteStore net this d s sent)
     = (sent ++ [Wire.post this
                   [("action", JString "delete-store");
                    ("dbName", JString d);
                    ("storeName", JString s)]])%list
  /\ snd (KVStore.getStores net this d sent)
     = (sent ++ [Wire.post this
                   [("action", JString "get-stores");
                    ("dbName", JString d);
                    ("storeName", JString (KVStore.storeName this))]])%list
  /\ snd (KVStore.deleteDatabase net this d sent)
     = (sent ++ [Wire.post this
                   [("action", JString "delete-database");
                    ("dbName", JString d);
                    ("storeName", JString (KVStore.storeName this))]])%list.
Proof.
  repeat split.
  - change (KVStore.createStore net this d s)
      with (KVStore._request net this "create-store"
              (Wire.params_of this (Api.CreateStore d s))).
    rewrite request_run. reflexivity.
  - change (KVStore.deleteStore net this d s)
      with (KVStore._request net this "delete-store"
              (Wire.params_of this (Api.DeleteStore d s))).
    rewrite request_run. reflexivity.
  - rewrite <- (snd_raw (KVStore.getStores net this d)).
    change (Api.raw (KVStore.getStores net this d))
      with (Api.invoke net this (Api.GetStores d)).
    rewrite invoke_run. reflexivity.
  - change (KVStore.deleteDatabase net this d)
      with (KVStore._request net this "delete-database"
              (Wire.params_of this (Api.DeleteDatabase d))).
    rewrite request_run. reflexivity.
Qed.

(** X8.  An operation that names no database or store and takes no form
    data sends the three defaults followed by its own fields, in the
    order of its arguments: [key] then [value] for [set] and [update],
    the array of keys for [getMany] and [deleteMany], the array of
    entries, each with its [key] then its [value], for [setMany]. *)
Theorem X8_own_fields_follow (net : transport) (this : KVStore.t)
    (op : Api.call) (sent : list Request) :
  Api.names_its_target op = false ->
  Api.form_data op = None ->
  snd (Api.invoke net this op sent)
  = (sent ++
     [Wire.post this
        (Wire.defaults this (Wire.action_of op) ++ Wire.params_of this op)])%list
  /\ (forall key value,
         op = Api.Set_ key value ->
         snd (KVStore.set net this key value sent)
         = (sent ++
            [Wire.post this
               [("action", JString "set");
                ("dbName", JString (KVStore.dbName this));
                ("storeName", JString (KVStore.storeName this));
                ("key", JString key);
                ("value", value)]])%list)
  /\ (forall keys,
         op = Api.GetMany keys ->
         snd (KVStore.getMany net this keys sent)
         = (sent ++
            [Wire.post this
               [("action", JString "getMany");
                ("dbName", JString (KVStore.dbName this));
                ("storeName", JString (KVStore.storeName this));
                ("keys", JArray (map JString keys))]])%list)
  /\ (forall entries,
         op = Api.SetMany entries ->
         snd (KVStore.setMany net this entries sent)
         = (sent ++
            [Wire.post this
               [("action", JString "setMany");
                ("dbName", JString (KVStore.dbName this));
                ("storeName", JString (KVStore.storeName this));
                ("entries",
                 JArray
                   (map (fun e =>
                           JObject [("key", JString (KVEntry.key e));
                                    ("value", KVEntry.value e)])
                      entries))]])%list).
Proof.
  intros Ht Hf.
  assert (H : snd (Api.invoke net this op sent)
              = (sent ++
                 [Wire.post this
                    (Wire.defaults this (Wire.action_of op)
                     ++ Wire.params_of this op)])%list).
  { rewrite invoke_run.
    destruct op; try discriminate Ht; try discriminate Hf; reflexivity. }
  split; [exact H|]. repeat split.
  - intros key value ->. simpl in H. rewrite snd_raw in H. exact H.
  - intros keys ->. exact H.
  - intros entries ->. simpl in H. rewrite snd_raw in H. exact H.
Qed.

Lemma X8_own_fields_follow_witness :
  snd (Api.invoke Faults.down Demo.client (Api.Delete "key1") [])
  = [Wire.post Demo.client
       [("action", JString "delete");
        ("dbName", JString "d");
        ("storeName", JString "s");
        ("key", JString "key1")]].
Proof.
  exact (proj1 (X8_own_fields_follow Faults.down Demo.client (Api.Delete "key1") []
                  eq_refl eq_refl)).
Defined.



(** ** The text of the body *)

Lemma members_defined (o : object) :
  flat_map (fun kv => match JSON.stringify (snd kv) with
                      | Some t => [JSON.quote (fst kv) ++ ":" ++ t]
                      | None => []
                      end) (filter Text.defined o)
  = flat_map (fun kv => match JSON.stringify (snd kv) with
                        | Some t => [JSON.quote (fst kv) ++ ":" ++ t]
                        | None => []
                        end) o.
Proof.
  induction o as [|[k v] o IH]; [reflexivity|].
  cbn [filter flat_map]. unfold Text.defined at 1. cbn [snd].
  destruct v; cbn [flat_map]; rewrite IH; reflexivity.
Qed.

(** [JSON.stringify] writes an object as it writes the object without
    its [undefined] properties. *)
Lemma stringify_defined (o : object) :
  JSON.stringify (JObject o) = JSON.stringify (JObject (filter Text.defined o)).
Proof.
  cbn [JSON.stringify]. rewrite members_defined. reflexivity.
Qed.

(** X6.  A property whose value is [undefined] is not in the text of
    the body: every operation sends the text of its object without such
    properties, so [set] and [update] of [undefined] send a body with no
    [value] at all. *)
Theorem X6_undefined_left_out (net : transport) (this : KVStore.t)
    (op : Api.call) (sent : list Request) :
  exists o,
    snd (Api.invoke net this op sent) = (sent ++ [Wire.post this o])%list
    /\ body (init (Wire.post this o))
       = JSON.stringify (JObject (filter Text.defined o))
    /\ (forall key,
           op = Api.Set_ key JUndefined ->
           body (init (Wire.post this o))
           = JSON.stringify
               (JObject
                  [("action", JString "set");
                   ("dbName", JString (KVStore.dbName this));
                   ("storeName", JString (KVStore.storeName this));
                   ("key", JString key)]))
    /\ (forall key,
           op = Api.Update key JUndefined ->
           body (init (Wire.post this o))
           = JSON.stringify
               (JObject
                  [("action", JString "update");
                   ("dbName", JString (KVStore.dbName this));
                   ("storeName", JString (KVStore.storeName this));
                   ("key", JString key)])).
Proof.
  exists (Wire.payload this (Wire.action_of op) (Wire.params_of this op)).
  split; [rewrite invoke_run; reflexivity|].
  assert (H : forall o,
             body (init (Wire.post this o))
             = JSON.stringify (JObject (filter Text.defined o))).
  { intros o. unfold Wire.post. cbn [body init]. apply stringify_defined. }
  split; [apply H|]. split.
  - intros key ->. rewrite H. reflexivity.
  - intros key ->. rewrite H. reflexivity.
Qed.












(** ** The operations and the private method *)

(** X13.  No operation adds transport logic of its own or hides a
    failure: it sends what its one call of [_request] sends and rejects
    with the same error whenever that call rejects.  When that call
    resolves, an operation that returns the response resolves with it,
    and one that returns a field reads the field, which fails only on
    [null] and [undefined], with a [TypeError]. *)
Theorem X13_only_through_request (net : transport) (this : KVStore.t)
    (op : Api.call) (sent : list Request) :
  let inner :=
    KVStore._request net this (Wire.action_of op) (Wire.params_of this op) sent in
  snd (Api.invoke net this op sent) = snd inner
  /\ (forall e, fst inner = Rejected e ->
                fst (Api.invoke net this op sent) = Rejected e)
  /\ (forall data, fst inner = Resolved data ->
                   fst (Api.invoke net this op sent) = Wire.result_of op data)
  /\ (forall data, fst inner = Resolved data -> Wire.field_of op = None ->
                   fst (Api.invoke net this op sent) = Resolved (Data data))
  /\ (forall e, fst (Api.invoke net this op sent) = Rejected e ->
                fst inner = Rejected e
                \/ exists data f,
                     fst inner = Resolved data
                     /\ Wire.field_of op = Some f
                     /\ (data = JNull \/ data = JUndefined)
                     /\ e = cannot_read data f).
Proof.
  intros inner. unfold inner. rewrite invoke_run, request_run.
  cbn [fst snd]. unfold Wire.request_of.
  destruct (Wire.settle _) as [data|e]; cbn [Wire.on_resolved].
  - split; [reflexivity|]. split; [discriminate|].
    split; [intros data' [= <-]; reflexivity|].
    split.
    + intros data' [= <-] Hf. unfold Wire.result_of. rewrite Hf. reflexivity.
    + intros e He. right. unfold Wire.result_of in He.
      destruct (Wire.field_of op) as [f|]; [|discriminate He].
      exists data, f. split; [reflexivity|]. split; [reflexivity|].
      destruct data; destruct (Wire.listing f); try discriminate He;
        injection He as <-; auto.
  - split; [reflexivity|]. split; [intros e' [= ->]; reflexivity|].
    split; [discriminate|]. split; [discriminate|].
    intros e' [= ->]. left. reflexivity.
Qed.

(** X14.  The twenty-one public methods use twenty-one different action
    names: the name of a call is the one at the place of its method in
    the catalogue, and two calls with the same action name are calls of
    the same method.  With arguments that leave [action] alone, the
    [action] of the body tells which method was called. *)
Theorem X14_action_names_differ (this : KVStore.t) (op op' : Api.call) :
  List.length Api.actions = 21
  /\ NoDup Api.actions
  /\ nth_error Api.actions (Catalogue.position op) = Some (Wire.action_of op)
  /\ (Wire.action_of op = Wire.action_of op' ->
      Catalogue.position op = Catalogue.position op')
  /\ (Given.form_lacks "action" op = true ->
      Given.form_lacks "action" op' = true ->
      Obj.get (Wire.payload this (Wire.action_of op) (Wire.params_of this op))
        "action"
      = Obj.get (Wire.payload this (Wire.action_of op') (Wire.params_of this op'))
          "action" ->
      Catalogue.position op = Catalogue.position op').
Proof.
  assert (Hinj : Wire.action_of op = Wire.action_of op' ->
                 Catalogue.position op = Catalogue.position op').
  { destruct op, op'; intros H; try reflexivity; discriminate H. }
  assert (Hact : forall o,
             Given.form_lacks "action" o = true ->
             Obj.get (Wire.payload this (Wire.action_of o) (Wire.params_of this o))
               "action"
             = JString (Wire.action_of o)).
  { intros o Hf. unfold Obj.get, Wire.payload.
    rewrite get_own_spread_target; [reflexivity|].
    destruct o;
      try (unfold Given.form_lacks in Hf; simpl in Hf;
           apply negb_true_iff in Hf; exact Hf);
      reflexivity. }
  split; [reflexivity|]. split; [|split; [|split]].
  - unfold Api.actions.
    repeat (constructor; [cbn [In]; intuition discriminate|]). constructor.
  - destruct op; reflexivity.
  - exact Hinj.
  - intros Hf Hf' H. rewrite (Hact op Hf), (Hact op' Hf') in H.
    injection H as H. exact (Hinj H).
Qed.

Lemma X14_action_names_differ_witness :
  Catalogue.position (Api.Delete "a") = Catalogue.position (Api.Delete "b").
Proof.
  exact (proj1 (proj2 (proj2 (proj2
           (X14_action_names_differ Demo.client (Api.Delete "a") (Api.Delete "b")))))
           eq_refl).
Defined.
